(** * Inventory manager: the per-item consumption tracker

    A shallow embedding of [InventoryManagerItem]
    (custom_components/inventory_manager/__init__.py) and of the warning
    entity [WarnSensor] (custom_components/inventory_manager/binary_sensor.py).

    The methods are embedded twice, with the same shape.
    - First over exact rationals ([Q]), for what does not turn on how Python
      rounds: which key a method writes, which display it updates, what it
      compares with what.  There Python's numeric [==] is [Qeq], so the int
      [0] that [get] defaults to and the float [0.0] that [set] clamps to are
      the same number.
    - Then, in module [Py], over Python's own numbers, an [int] of any size
      or a binary64 [float], for what does turn on it: overflow to infinity,
      NaN, and the [OverflowError] of an [int] too large for a float.
    In both, [InventoryManagerEntityType] is an [IntFlag], that is an
    integer; the two dictionaries of the item are finite maps keyed by that
    integer; and methods mutate the item, so they are computations in a state
    monad over the item that can also raise a Python exception. *)

From Stdlib Require Import QArith Qminmax Lqa Floats.
From stdpp Require Import gmap list strings.

Local Open Scope Z_scope.

(** ** Numbers *)

(** [x < y] on numbers, as a boolean. *)
Definition Qltb (x y : Q) : bool := negb (Qle_bool y x).

(** ** The entity types (class [InventoryManagerEntityType]) *)

Definition SUPPLY : Z := 1.
Definition NIGHT : Z := 4.
Definition MORNING : Z := 8.
Definition NOON : Z := 32.
Definition EVENING : Z := 64.
Definition WARNING : Z := 128.
Definition EMPTYPREDICTION : Z := 256.

Definition doses : list Z := [MORNING; NOON; EVENING; NIGHT].

(** Python's [x in xs] on a list of entity types. *)
Definition py_in (x : Z) (xs : list Z) : bool := existsb (Z.eqb x) xs.

(** ** Python values that meet in a comparison *)

Inductive pyval : Type :=
| PyNum (x : Q)
| PyStr (s : string).

(** Python's [==]: a number and a string are never equal. *)
Definition py_eq (a b : pyval) : bool :=
  match a, b with
  | PyNum x, PyNum y => Qeq_bool x y
  | PyStr s, PyStr t => String.eqb s t
  | _, _ => false
  end.

(** [homeassistant.const.STATE_UNAVAILABLE]. *)
Definition STATE_UNAVAILABLE : string := "unavailable".

(** ** Objects *)

(** The fields of a [WarnSensor] that [update] writes. *)
Record WarnSensor : Type := mkWarnSensor {
  is_on : bool;
  available : bool
}.

(** Modelled from the spec: the display registered under EMPTYPREDICTION
    lives in sensor.py, which is not among the sources.  The spec (section 6)
    says that such a consumer registers a refresh callback and reads
    daysRemaining() to render its own value; the record keeps that reading. *)
Record EmptyPredictionSensor : Type := mkEmptyPredictionSensor {
  native_value : option Q
}.

(** What [InventoryManagerItem.entity] may hold. *)
Inductive sub_entity : Type :=
| WarnEntity (w : WarnSensor)
| PredictionEntity (p : EmptyPredictionSensor).

(** The item.  [sensor_before_empty] is [data[CONF_SENSOR_BEFORE_EMPTY]],
    the warning threshold in days, which the configuration always carries.
    [updates] is a ghost trace: the tags under which [set] called
    [sub_entity.update()], oldest first. *)
Record InventoryManagerItem : Type := mkItem {
  sensor_before_empty : Q;
  _numbers : gmap Z Q;
  entity : gmap Z sub_entity;
  updates : list Z
}.

Definition with_numbers (n : gmap Z Q) (it : InventoryManagerItem) : InventoryManagerItem :=
  mkItem (sensor_before_empty it) n (entity it) (updates it).

Definition with_entity (e : gmap Z sub_entity) (it : InventoryManagerItem) : InventoryManagerItem :=
  mkItem (sensor_before_empty it) (_numbers it) e (updates it).

Definition with_updates (l : list Z) (it : InventoryManagerItem) : InventoryManagerItem :=
  mkItem (sensor_before_empty it) (_numbers it) (entity it) l.

(** [InventoryManagerItem.__init__]: no number stored, nothing registered. *)
Definition new_item (threshold : Q) : InventoryManagerItem :=
  mkItem threshold ∅ ∅ [].

(** ** Computations on an item *)

(** The exceptions the methods name or could raise on exact numbers;
    [Py.exn] adds the [OverflowError] of Python's numbers. *)
Inductive exn : Type :=
| KeyError
| AttributeError
| ZeroDivisionError.

Inductive outcome (A : Type) : Type :=
| Returned (a : A)
| Raised (e : exn).
Arguments Returned {A} a.
Arguments Raised {A} e.

(** A method body: it ends by returning or raising, and in both cases
    leaves the item as it mutated it. *)
Definition M (A : Type) : Type := InventoryManagerItem → outcome A * InventoryManagerItem.

Definition ret {A} (a : A) : M A := λ it, (Returned a, it).

Definition raise {A} (e : exn) : M A := λ it, (Raised e, it).

Definition bind {A B} (m : M A) (k : A → M B) : M B :=
  λ it, match m it with
        | (Returned a, it') => k a it'
        | (Raised e, it') => (Raised e, it')
        end.

Notation "'let!' x ':=' m 'in' k" := (bind m (λ x, k))
  (at level 10, x name, m at level 100, k at level 200, only parsing).
Notation "'do!' m 'in' k" := (bind m (λ _, k))
  (at level 10, m at level 100, k at level 200, only parsing).

(** [try: body except (caught): handler]. *)
Definition try_except {A} (body : M A) (caught : exn → bool) (handler : M A) : M A :=
  λ it, match body it with
        | (Raised e, it') => if caught e then handler it' else (Raised e, it')
        | r => r
        end.

Definition modify (f : InventoryManagerItem → InventoryManagerItem) : M unit :=
  λ it, (Returned tt, f it).

Definition read {A} (f : InventoryManagerItem → A) : M A :=
  λ it, (Returned (f it), it).

(** What a computation returns or raises, and the item it leaves. *)
Definition result {A} (m : M A) (it : InventoryManagerItem) : outcome A := fst (m it).
Definition after {A} (m : M A) (it : InventoryManagerItem) : InventoryManagerItem := snd (m it).

(** Python's [x / y] on numbers, exactly; [Py.py_truediv] is the division
    with its rounding and its overflow. *)
Definition py_truediv (x y : Q) : M Q :=
  if Qeq_bool y 0 then raise ZeroDivisionError else ret (x / y)%Q.

(** ** [InventoryManagerItem] methods *)

(** [get]: [self._numbers.setdefault(entity_type, 0)].  An absent key is
    inserted with 0, so reading mutates the dictionary. *)
Definition get (entity_type : Z) : M Q :=
  λ it, match _numbers it !! entity_type with
        | Some v => (Returned v, it)
        | None => (Returned 0%Q, with_numbers (<[entity_type := 0%Q]> (_numbers it)) it)
        end.

(** [sum(self.get(t) for t in ts)] with the running total [acc], exactly;
    [Py.sum_get] is the sum as Python rounds it. *)
Fixpoint sum_get (acc : Q) (ts : list Z) : M Q :=
  match ts with
  | [] => ret acc
  | t :: ts' => let! v := get t in sum_get (acc + v)%Q ts'
  end.

Definition caught_by_daily_consumption (e : exn) : bool :=
  match e with
  | KeyError | AttributeError => true
  | _ => false
  end.

Definition daily_consumption : M Q :=
  try_except
    (let! s := sum_get 0%Q [MORNING; NOON; EVENING; NIGHT] in ret s)
    caught_by_daily_consumption
    (ret 0%Q).

Definition days_remaining : M Q :=
  let! supply := get SUPPLY in
  let! daily := daily_consumption in
  if Qltb 0 daily then py_truediv supply daily else ret 10000%Q.

(** ** Sub-entity updates *)

(** [WarnSensor.update], run on the sensor registered under [slot]: the
    sensor is the object the item holds in that slot, and its [item] is the
    item itself.  The closing [schedule_update_ha_state()] hands over to the
    host and is left out. *)
Definition WarnSensor_update (slot : Z) (w : WarnSensor) : M unit :=
  let! d := days_remaining in
  let! threshold := read sensor_before_empty in
  let w' :=
    if py_eq (PyNum d) (PyStr STATE_UNAVAILABLE)
    then mkWarnSensor false false
    else mkWarnSensor (Qltb d threshold) true in
  modify (λ it, with_entity (<[slot := WarnEntity w']> (entity it)) it).

(** Modelled from the spec: the refresh of the EMPTYPREDICTION display
    (sensor.py is not among the sources) reads daysRemaining() and keeps it. *)
Definition EmptyPredictionSensor_update (slot : Z) (p : EmptyPredictionSensor) : M unit :=
  let! d := days_remaining in
  modify (λ it, with_entity (<[slot := PredictionEntity (mkEmptyPredictionSensor (Some d))]> (entity it)) it).

(** [sub_entity.update()] on the object found under [slot]. *)
Definition update (slot : Z) (sub : sub_entity) : M unit :=
  match sub with
  | WarnEntity w => WarnSensor_update slot w
  | PredictionEntity p => EmptyPredictionSensor_update slot p
  end.

(** The loop body of [set]: look the slot up, update what is there. *)
Definition notify (et : Z) : M unit :=
  λ it, match entity it !! et with
        | Some sub_entity =>
            (do! modify (λ it, with_updates (updates it ++ [et]) it) in
             update et sub_entity) it
        | None => ret tt it
        end.

Fixpoint notify_all (ets : list Z) : M unit :=
  match ets with
  | [] => ret tt
  | et :: ets' => do! notify et in notify_all ets'
  end.

Definition store (spec : Z) (val : Q) : M unit :=
  modify (λ it, with_numbers (<[spec := val]> (_numbers it)) it).

(** [set].  The two [_LOGGER.debug] calls leave the item alone and are
    left out, as in the other methods.  Every exact number is below 0 or
    not; [Py.set] has the NaN, which is neither. *)
Definition set (spec : Z) (val : Q) : M unit :=
  do! (if Qltb val 0 then store spec 0%Q else store spec val) in
  notify_all [EMPTYPREDICTION; WARNING].

Definition take_number (number : Q) : M unit :=
  if negb (Qeq_bool number 0)
  then let! supply := get SUPPLY in set SUPPLY (supply - number)%Q
  else ret tt.

Definition take_dose (dose : Z) : M unit :=
  if negb (py_in dose [MORNING; NOON; EVENING; NIGHT])
  then ret tt
  else let! amount := get dose in take_number amount.

(** [WarnSensor.__init__]: the new sensor registers itself under WARNING,
    off and unavailable. *)
Definition WarnSensor_init : M unit :=
  modify (λ it, with_entity (<[WARNING := WarnEntity (mkWarnSensor false false)]> (entity it)) it).

(** Modelled from the spec: registration of the EMPTYPREDICTION display
    (sensor.py is not among the sources), one callback in that slot. *)
Definition EmptyPredictionSensor_init : M unit :=
  modify (λ it, with_entity (<[EMPTYPREDICTION := PredictionEntity (mkEmptyPredictionSensor None)]> (entity it)) it).

(** ** Sequences of calls *)

(** What the host may ask of an item: the four tracker operations, and the
    set-up of the two displays. *)
Inductive operation : Type :=
| OpSet (spec : Z) (val : Q)
| OpGet (entity_type : Z)
| OpTakeDose (dose : Z)
| OpTakeNumber (number : Q)
| OpWarnSensor
| OpEmptyPredictionSensor.

Definition discard {A} (m : M A) : M unit := let! _a := m in ret tt.

Definition call (op : operation) : M unit :=
  match op with
  | OpSet spec val => set spec val
  | OpGet entity_type => discard (get entity_type)
  | OpTakeDose dose => take_dose dose
  | OpTakeNumber number => take_number number
  | OpWarnSensor => WarnSensor_init
  | OpEmptyPredictionSensor => EmptyPredictionSensor_init
  end.

(** The calls are made one after the other; a call that raised would end
    the sequence with that exception. *)
Fixpoint calls (ops : list operation) : M unit :=
  match ops with
  | [] => ret tt
  | op :: ops' => do! call op in calls ops'
  end.

(** ** Specification vocabulary *)

(** The number a tag stands for in a dictionary: the stored one, else 0. *)
Definition number_of (n : gmap Z Q) (q : Z) : Q := default 0%Q (n !! q).

(** Every stored number is non-negative. *)
Definition non_negative (it : InventoryManagerItem) : Prop :=
  map_Forall (λ _ v, (0 <= v)%Q) (_numbers it).


(** Is a sub-entity registered under the tag? *)
Definition registered (it : InventoryManagerItem) (et : Z) : bool :=
  bool_decide (is_Some (entity it !! et)).


(** The warning flag of the sensor registered under WARNING, if any. *)
Definition warning_is_on (it : InventoryManagerItem) : option bool :=
  match entity it !! WARNING with
  | Some (WarnEntity w) => Some (is_on w)
  | _ => None
  end.

(** Reading through [get] may add keys, and only with the number 0:
    [n'] is [n] with some absent keys now holding 0. *)
Definition zero_extends (n n' : gmap Z Q) : Prop :=
  ∀ q, n' !! q = n !! q ∨ (n !! q = None ∧ n' !! q = Some 0%Q).

(** The footprint of a method that only reads numbers. *)
Definition reads_only (it it' : InventoryManagerItem) : Prop :=
  sensor_before_empty it' = sensor_before_empty it ∧
  zero_extends (_numbers it) (_numbers it') ∧
  entity it' = entity it ∧
  updates it' = updates it.

(** The footprint of a sub-entity update: it reads numbers and rewrites
    sub-entities in place, so the same slots stay registered. *)
Definition refreshes (it it' : InventoryManagerItem) : Prop :=
  sensor_before_empty it' = sensor_before_empty it ∧
  zero_extends (_numbers it) (_numbers it') ∧
  (∀ et, registered it' et = registered it et).

(** The total [daily_consumption] computes from a dictionary: Python's
    [sum] starts from 0 and adds the four doses in the order of the list. *)
Definition doses_total (n : gmap Z Q) : Q :=
  (0 + number_of n MORNING + number_of n NOON + number_of n EVENING
     + number_of n NIGHT)%Q.

(** ** Names and identifiers

    The part of [InventoryManagerItem.__init__] and of
    [_generate_entity_config] that builds strings.  Strings are ASCII text,
    on which Python's [str.lower] lowers the letters A to Z one by one. *)

Definition lower_char (c : Ascii.ascii) : Ascii.ascii :=
  let n := Ascii.nat_of_ascii c in
  if ((65 <=? n)%nat && (n <=? 90)%nat)%bool then Ascii.ascii_of_nat (n + 32) else c.

Fixpoint lower (s : string) : string :=
  match s with
  | EmptyString => EmptyString
  | String c s' => String (lower_char c) (lower s')
  end.

(** The members of [InventoryManagerEntityType], in the order of the class
    body, which is the order in which [for entity_type in
    InventoryManagerEntityType] visits them. *)
Inductive member : Type :=
| Supply | Night | Morning | Noon | Evening | Warning | EmptyPrediction.

Definition members : list member :=
  [Supply; Night; Morning; Noon; Evening; Warning; EmptyPrediction].

Definition value (m : member) : Z :=
  match m with
  | Supply => SUPPLY
  | Night => NIGHT
  | Morning => MORNING
  | Noon => NOON
  | Evening => EVENING
  | Warning => WARNING
  | EmptyPrediction => EMPTYPREDICTION
  end.

(** [entity_type.name]. *)
Definition name (m : member) : string :=
  match m with
  | Supply => "SUPPLY"
  | Night => "NIGHT"
  | Morning => "MORNING"
  | Noon => "NOON"
  | Evening => "EVENING"
  | Warning => "WARNING"
  | EmptyPrediction => "EMPTYPREDICTION"
  end.

(** The configuration entry's data [d]: the item's name is always there,
    size and vendor may be missing. *)
Record config_data : Type := mkConfigData {
  CONF_ITEM_NAME : string;
  CONF_ITEM_SIZE : option string;
  CONF_ITEM_VENDOR : option string
}.

(** [self.device_id] as [__init__] computes it. *)
Definition device_id (d : config_data) : string :=
  match CONF_ITEM_SIZE d with
  | Some size => lower (CONF_ITEM_NAME d) +:+ "-" +:+ lower size
  | None => lower (CONF_ITEM_NAME d)
  end.

(** [self.name]: [data[CONF_ITEM_NAME] + " " + data.get(CONF_ITEM_SIZE, "")]. *)
Definition item_name (d : config_data) : string :=
  CONF_ITEM_NAME d +:+ " " +:+ default "" (CONF_ITEM_SIZE d).

(** [friendly_name] of [async_setup_entry], the name given to the device
    registry.  [SPACE] is a constant of const.py, which is not among the
    sources, and is a parameter here. *)
Definition friendly_name (SPACE : string) (d : config_data) : string :=
  match CONF_ITEM_SIZE d with
  | Some size => CONF_ITEM_NAME d +:+ SPACE +:+ size
  | None => CONF_ITEM_NAME d
  end.

(** One value of [self.entity_config]. *)
Record entity_config_entry : Type := mkEntityConfig {
  UNIQUE_ID : string;
  ENTITY_ID : string;
  ENTITY_TYPE : Z
}.

(** [_generate_entity_config].  [UNDERSCORE] is a constant of const.py (not
    among the sources) and [generate_entity_id] is the host's helper, applied
    to the format and the unique id; both are parameters. *)
Definition _generate_entity_config (UNDERSCORE : string)
    (generate_entity_id : string → string → string)
    (device : string) (entity_type : member) : entity_config_entry :=
  let fmt :=
    if value entity_type =? EMPTYPREDICTION then "sensor.{}"
    else if value entity_type =? WARNING then "binary_sensor.{}"
    else "number.{}" in
  let unique_id := device +:+ UNDERSCORE +:+ lower (name entity_type) in
  mkEntityConfig unique_id (generate_entity_id fmt unique_id) (value entity_type).

(** [self.entity_config]: the dictionary comprehension over the members,
    a later member overwriting an earlier one with the same key. *)
Definition entity_config (UNDERSCORE : string)
    (generate_entity_id : string → string → string)
    (device : string) : gmap Z entity_config_entry :=
  fold_left
    (λ acc entity_type,
       <[value entity_type :=
           _generate_entity_config UNDERSCORE generate_entity_id device entity_type]> acc)
    members ∅.

(** * The same code over Python's numbers

    Where a property turns on overflow, NaN or the mixing of [int] and
    [float], the methods are read again with the numbers Python has: an
    [int] of any size or a binary64 [float].  The shape of every method is
    the one above; what changes is the arithmetic, which can now raise
    [OverflowError], and the threshold, which the configuration may lack. *)
Module Py.

Inductive number : Type :=
| Int (z : Z)
| Float (f : float).

Inductive exn : Type :=
| KeyError
| AttributeError
| ZeroDivisionError
| OverflowError.

Inductive outcome (A : Type) : Type :=
| Returned (a : A)
| Raised (e : exn).
Arguments Returned {A} a.
Arguments Raised {A} e.

(** ** Arithmetic *)

(** [float(z)]: the nearest float, ties to even; an [int] that rounds past
    the largest float raises [OverflowError]. *)
Definition float_of_int (z : Z) : outcome float :=
  match binary_normalize prec emax z 0 false with
  | S754_infinity _ => Raised OverflowError
  | sf => Returned (SF2Prim sf)
  end.

Definition sf_of_int (z : Z) : spec_float :=
  match z with
  | Z0 => S754_zero false
  | Zpos p => S754_finite false p 0
  | Zneg p => S754_finite true p 0
  end.

(** [x / y] on two [int]s, [y] not 0: the correctly rounded quotient, or
    [OverflowError] when it is too large for a float. *)
Definition int_truediv (x y : Z) : outcome float :=
  match SFdiv prec emax (sf_of_int x) (sf_of_int y) with
  | S754_infinity _ => Raised OverflowError
  | sf => Returned (SF2Prim sf)
  end.

(** The order of a float and an [int], compared exactly as Python does;
    [None] for NaN, which is unordered. *)
Definition float_compare_int (f : float) (z : Z) : option comparison :=
  match Prim2SF f with
  | S754_nan => None
  | S754_infinity s => Some (if s then Lt else Gt)
  | S754_zero _ => Some (0 ?= z)
  | S754_finite s m e =>
      let v := if s then Zneg m else Zpos m in
      Some (if 0 <=? e then (v * 2 ^ e ?= z) else (v ?= z * 2 ^ (- e)))
  end.

(** [f == 0.0]. *)
Definition float_is_zero (f : float) : bool :=
  match Prim2SF f with
  | S754_zero _ => true
  | _ => false
  end.

Definition float_is_nan (f : float) : bool :=
  match Prim2SF f with
  | S754_nan => true
  | _ => false
  end.

(** [a < b]. *)
Definition py_lt (a b : number) : bool :=
  match a, b with
  | Int x, Int y => x <? y
  | Float x, Float y => PrimFloat.ltb x y
  | Float x, Int y =>
      match float_compare_int x y with Some Lt => true | _ => false end
  | Int x, Float y =>
      match float_compare_int y x with Some Gt => true | _ => false end
  end.

(** [a <= b]. *)
Definition py_le (a b : number) : bool :=
  match a, b with
  | Int x, Int y => x <=? y
  | Float x, Float y => PrimFloat.leb x y
  | Float x, Int y =>
      match float_compare_int x y with Some Lt | Some Eq => true | _ => false end
  | Int x, Float y =>
      match float_compare_int y x with Some Gt | Some Eq => true | _ => false end
  end.

(** [a == b] on numbers. *)
Definition py_eq (a b : number) : bool :=
  match a, b with
  | Int x, Int y => x =? y
  | Float x, Float y => PrimFloat.eqb x y
  | Float x, Int y | Int y, Float x =>
      match float_compare_int x y with Some Eq => true | _ => false end
  end.

Definition is_nan (a : number) : bool :=
  match a with
  | Int _ => false
  | Float f => float_is_nan f
  end.

Definition is_infinite (a : number) : bool :=
  match a with
  | Int _ => false
  | Float f => match Prim2SF f with S754_infinity _ => true | _ => false end
  end.

(** [a + b]: exact on two [int]s, rounded on two floats; an [int] that
    meets a float is converted first. *)
Definition py_add (a b : number) : outcome number :=
  match a, b with
  | Int x, Int y => Returned (Int (x + y))
  | Float x, Float y => Returned (Float (x + y))
  | Int x, Float y =>
      match float_of_int x with
      | Returned fx => Returned (Float (fx + y))
      | Raised e => Raised e
      end
  | Float x, Int y =>
      match float_of_int y with
      | Returned fy => Returned (Float (x + fy))
      | Raised e => Raised e
      end
  end.

(** [a - b]. *)
Definition py_sub (a b : number) : outcome number :=
  match a, b with
  | Int x, Int y => Returned (Int (x - y))
  | Float x, Float y => Returned (Float (x - y))
  | Int x, Float y =>
      match float_of_int x with
      | Returned fx => Returned (Float (fx - y))
      | Raised e => Raised e
      end
  | Float x, Int y =>
      match float_of_int y with
      | Returned fy => Returned (Float (x - fy))
      | Raised e => Raised e
      end
  end.

(** [a / b].  A float divisor is tested against 0.0 after the operands were
    converted; an [int] divisor converts to 0.0 exactly when it is 0, so it
    is tested as it stands. *)
Definition py_truediv (a b : number) : outcome number :=
  match a, b with
  | Int x, Int y =>
      if y =? 0 then Raised ZeroDivisionError
      else match int_truediv x y with
           | Returned q => Returned (Float q)
           | Raised e => Raised e
           end
  | Float x, Float y =>
      if float_is_zero y then Raised ZeroDivisionError
      else Returned (Float (x / y))
  | Int x, Float y =>
      match float_of_int x with
      | Returned fx =>
          if float_is_zero y then Raised ZeroDivisionError
          else Returned (Float (fx / y))
      | Raised e => Raised e
      end
  | Float x, Int y =>
      if y =? 0 then Raised ZeroDivisionError
      else match float_of_int y with
           | Returned fy => Returned (Float (x / fy))
           | Raised e => Raised e
           end
  end.

(** How the builtin [sum] keeps its running total: where it starts, how it
    takes in the next item, which may raise, and what it hands back at the
    end.  The items are taken in from left to right in every version of
    CPython; what the total is made of is not the same in all of them (up to
    3.11 it is the sum so far, from 3.12 on a run of floats also carries a
    compensation term). *)
Class summation : Type := mkSummation {
  total : Type;
  start : number → total;
  add_item : total → number → outcome total;
  finish : total → number
}.

(** The total is the sum so far and every item is added with [+]: [sum] as
    it is documented, and as CPython computes it up to 3.11. *)
Definition plain : summation := mkSummation number (λ x, x) py_add (λ x, x).

(** [sum(vs)] from a total. *)
Fixpoint sum_from {S : summation} (t : total) (vs : list number) : outcome number :=
  match vs with
  | [] => Returned (finish t)
  | v :: vs' =>
      match add_item t v with
      | Returned t' => sum_from t' vs'
      | Raised e => Raised e
      end
  end.

(** [sum(vs)]: the start value is the [int] 0. *)
Definition py_sum {S : summation} (vs : list number) : outcome number :=
  sum_from (start (Int 0)) vs.

(** All that is assumed of [sum]: taking in an item raises nothing but the
    [OverflowError] of [+]. *)
Definition raises_only_overflow (S : summation) : Prop :=
  ∀ (t : total) (v : number) (e : exn), add_item t v = Raised e → e = OverflowError.

(** A number or a string, for the one comparison that mixes them. *)
Inductive pyval : Type :=
| Num (x : number)
| Str (s : string).

Definition py_eq_val (a b : pyval) : bool :=
  match a, b with
  | Num x, Num y => py_eq x y
  | Str s, Str t => String.eqb s t
  | _, _ => false
  end.

(** ** Objects *)

(** Modelled from the spec: the display registered under EMPTYPREDICTION
    lives in sensor.py, which is not among the sources.  The spec (section 6)
    says that such a consumer registers a refresh callback and reads
    daysRemaining() to render its own value; the record keeps that reading. *)
Record EmptyPredictionSensor : Type := mkEmptyPredictionSensor {
  native_value : option number
}.

Inductive sub_entity : Type :=
| WarnEntity (w : WarnSensor)
| PredictionEntity (p : EmptyPredictionSensor).

(** The item.  [sensor_before_empty] is what [data] holds under
    CONF_SENSOR_BEFORE_EMPTY, if anything. *)
Record InventoryManagerItem : Type := mkItem {
  sensor_before_empty : option number;
  _numbers : gmap Z number;
  entity : gmap Z sub_entity;
  updates : list Z
}.

Definition with_numbers (n : gmap Z number) (it : InventoryManagerItem) : InventoryManagerItem :=
  mkItem (sensor_before_empty it) n (entity it) (updates it).

Definition with_entity (e : gmap Z sub_entity) (it : InventoryManagerItem) : InventoryManagerItem :=
  mkItem (sensor_before_empty it) (_numbers it) e (updates it).

Definition with_updates (l : list Z) (it : InventoryManagerItem) : InventoryManagerItem :=
  mkItem (sensor_before_empty it) (_numbers it) (entity it) l.

Definition new_item (threshold : option number) : InventoryManagerItem :=
  mkItem threshold ∅ ∅ [].

(** ** Computations on an item *)

Definition M (A : Type) : Type := InventoryManagerItem → outcome A * InventoryManagerItem.

Definition ret {A} (a : A) : M A := λ it, (Returned a, it).

Definition raise {A} (e : exn) : M A := λ it, (Raised e, it).

Definition bind {A B} (m : M A) (k : A → M B) : M B :=
  λ it, match m it with
        | (Returned a, it') => k a it'
        | (Raised e, it') => (Raised e, it')
        end.

Declare Scope py_scope.
Notation "'let!' x ':=' m 'in' k" := (bind m (λ x, k))
  (at level 10, x name, m at level 100, k at level 200, only parsing) : py_scope.
Notation "'do!' m 'in' k" := (bind m (λ _, k))
  (at level 10, m at level 100, k at level 200, only parsing) : py_scope.
Local Open Scope py_scope.

(** The value of an expression that may raise. *)
Definition lift {A} (r : outcome A) : M A := λ it, (r, it).

Definition try_except {A} (body : M A) (caught : exn → bool) (handler : M A) : M A :=
  λ it, match body it with
        | (Raised e, it') => if caught e then handler it' else (Raised e, it')
        | r => r
        end.

Definition modify (f : InventoryManagerItem → InventoryManagerItem) : M unit :=
  λ it, (Returned tt, f it).

Definition result {A} (m : M A) (it : InventoryManagerItem) : outcome A := fst (m it).
Definition after {A} (m : M A) (it : InventoryManagerItem) : InventoryManagerItem := snd (m it).

(** ** [InventoryManagerItem] methods *)

Definition get (entity_type : Z) : M number :=
  λ it, match _numbers it !! entity_type with
        | Some v => (Returned v, it)
        | None => (Returned (Int 0), with_numbers (<[entity_type := Int 0]> (_numbers it)) it)
        end.

Section Methods.

Context {S : summation}.

(** [sum(self.get(t) for t in ts)]: [sum] draws the items one by one, so
    each [get] is followed by the taking in of what it returned, and an item
    that raises ends the reading. *)
Fixpoint sum_get (t : total) (ts : list Z) : M number :=
  match ts with
  | [] => ret (finish t)
  | q :: ts' =>
      let! v := get q in
      let! t' := lift (add_item t v) in
      sum_get t' ts'
  end.

Definition caught_by_daily_consumption (e : exn) : bool :=
  match e with
  | KeyError | AttributeError => true
  | _ => false
  end.

Definition daily_consumption : M number :=
  try_except
    (let! s := sum_get (start (Int 0)) [MORNING; NOON; EVENING; NIGHT] in ret s)
    caught_by_daily_consumption
    (ret (Int 0)).

Definition days_remaining : M number :=
  let! supply := get SUPPLY in
  let! daily := daily_consumption in
  if py_lt (Int 0) daily then lift (py_truediv supply daily) else ret (Int 10000).

(** ** Sub-entity updates *)

Definition write_sensor (slot : Z) (w : WarnSensor) : M unit :=
  modify (λ it, with_entity (<[slot := WarnEntity w]> (entity it)) it).

(** [data[CONF_SENSOR_BEFORE_EMPTY]]. *)
Definition threshold : M number :=
  λ it, match sensor_before_empty it with
        | Some t => (Returned t, it)
        | None => (Raised KeyError, it)
        end.

(** [WarnSensor.update]: [available] is set before the threshold is looked
    up, so a missing threshold leaves the sensor available with its old
    flag. *)
Definition WarnSensor_update (slot : Z) (w : WarnSensor) : M unit :=
  let! d := days_remaining in
  if py_eq_val (Num d) (Str STATE_UNAVAILABLE)
  then write_sensor slot (mkWarnSensor false false)
  else
    do! write_sensor slot (mkWarnSensor (is_on w) true) in
    let! t := threshold in
    write_sensor slot (mkWarnSensor (py_lt d t) true).

(** Modelled from the spec: the refresh of the EMPTYPREDICTION display
    (sensor.py is not among the sources) reads daysRemaining() and keeps it. *)
Definition EmptyPredictionSensor_update (slot : Z) (p : EmptyPredictionSensor) : M unit :=
  let! d := days_remaining in
  modify (λ it, with_entity (<[slot := PredictionEntity (mkEmptyPredictionSensor (Some d))]> (entity it)) it).

Definition update (slot : Z) (sub : sub_entity) : M unit :=
  match sub with
  | WarnEntity w => WarnSensor_update slot w
  | PredictionEntity p => EmptyPredictionSensor_update slot p
  end.

Definition notify (et : Z) : M unit :=
  λ it, match entity it !! et with
        | Some sub_entity =>
            (do! modify (λ it, with_updates (updates it ++ [et]) it) in
             update et sub_entity) it
        | None => ret tt it
        end.

Fixpoint notify_all (ets : list Z) : M unit :=
  match ets with
  | [] => ret tt
  | et :: ets' => do! notify et in notify_all ets'
  end.

Definition store (spec : Z) (val : number) : M unit :=
  modify (λ it, with_numbers (<[spec := val]> (_numbers it)) it).

Definition set (spec : Z) (val : number) : M unit :=
  do! (if py_lt val (Int 0) then store spec (Float 0) else store spec val) in
  notify_all [EMPTYPREDICTION; WARNING].

Definition take_number (number : number) : M unit :=
  if negb (py_eq number (Int 0))
  then
    let! supply := get SUPPLY in
    let! left := lift (py_sub supply number) in
    set SUPPLY left
  else ret tt.

Definition take_dose (dose : Z) : M unit :=
  if negb (py_in dose [MORNING; NOON; EVENING; NIGHT])
  then ret tt
  else let! amount := get dose in take_number amount.

Definition WarnSensor_init : M unit :=
  modify (λ it, with_entity (<[WARNING := WarnEntity (mkWarnSensor false false)]> (entity it)) it).

(** Modelled from the spec: registration of the EMPTYPREDICTION display
    (sensor.py is not among the sources), one callback in that slot. *)
Definition EmptyPredictionSensor_init : M unit :=
  modify (λ it, with_entity (<[EMPTYPREDICTION := PredictionEntity (mkEmptyPredictionSensor None)]> (entity it)) it).

(** ** Sequences of calls *)

Inductive operation : Type :=
| OpSet (spec : Z) (val : number)
| OpGet (entity_type : Z)
| OpTakeDose (dose : Z)
| OpTakeNumber (number : number)
| OpWarnSensor
| OpEmptyPredictionSensor.

Definition call (op : operation) : M unit :=
  match op with
  | OpSet spec val => set spec val
  | OpGet entity_type => let! _v := get entity_type in ret tt
  | OpTakeDose dose => take_dose dose
  | OpTakeNumber number => take_number number
  | OpWarnSensor => WarnSensor_init
  | OpEmptyPredictionSensor => EmptyPredictionSensor_init
  end.

(** The host makes the calls one after the other.  A call that raises has
    done what it did before raising, and the next call finds the item so. *)
Fixpoint run (ops : list operation) (it : InventoryManagerItem) : InventoryManagerItem :=
  match ops with
  | [] => it
  | op :: ops' => run ops' (after (call op) it)
  end.

End Methods.

(** ** Specification vocabulary *)

Definition number_of (n : gmap Z number) (q : Z) : number := default (Int 0) (n !! q).

(** No stored number is negative: [v < 0] is false of each. *)
Definition none_negative (it : InventoryManagerItem) : Prop :=
  map_Forall (λ _ v, py_lt v (Int 0) = false) (_numbers it).

Definition registered (it : InventoryManagerItem) (et : Z) : bool :=
  bool_decide (is_Some (entity it !! et)).

Definition zero_extends (n n' : gmap Z number) : Prop :=
  ∀ q, n' !! q = n !! q ∨ (n !! q = None ∧ n' !! q = Some (Int 0)).

(** What no call undoes, whether it returns or raises. *)
Definition carries_on (it it' : InventoryManagerItem) : Prop :=
  sensor_before_empty it' = sensor_before_empty it ∧
  (∀ et, registered it et = true → registered it' et = true) ∧
  ∃ new, updates it' = updates it ++ new ∧
         Forall (λ et, et = EMPTYPREDICTION ∨ et = WARNING) new.

(** The footprint of everything but a store: numbers are only defaulted. *)
Definition steady (it it' : InventoryManagerItem) : Prop :=
  carries_on it it' ∧ zero_extends (_numbers it) (_numbers it').

(** The footprint of every call: nothing is undone and no negative number
    comes to be stored. *)
Definition sound (it it' : InventoryManagerItem) : Prop :=
  carries_on it it' ∧ (none_negative it → none_negative it').

(** A computation keeps a relation between the item it finds and the item
    it leaves, however it ends. *)
Definition keeps {A} (R : InventoryManagerItem → InventoryManagerItem → Prop) (m : M A) : Prop :=
  ∀ it, R it (after m it).

End Py.

(** ** Scenarios of the specification, by evaluation *)

Lemma get_new_item (threshold : Q) (q : Z) :
  result (get q) (new_item threshold) = Returned 0%Q.
Proof. unfold result, get. simpl. by rewrite lookup_empty. Qed.

Example scenario_four_doses :
  let it := after (calls [OpSet SUPPLY 10; OpSet MORNING 1; OpSet NOON 1;
                          OpSet EVENING 1; OpSet NIGHT 1]) (new_item 7) in
  result daily_consumption it = Returned 4%Q ∧
  result days_remaining it = Returned (10 / 4)%Q.
Proof. vm_compute. split; reflexivity. Qed.

Example scenario_no_doses :
  let it := after (calls [OpSet SUPPLY 5]) (new_item 7) in
  result daily_consumption it = Returned 0%Q ∧
  result days_remaining it = Returned 10000%Q.
Proof. vm_compute. split; reflexivity. Qed.

Example scenario_take_more_than_supply :
  let it := after (calls [OpSet SUPPLY 3; OpTakeNumber 5]) (new_item 7) in
  result (get SUPPLY) it = Returned 0%Q.
Proof. vm_compute. reflexivity. Qed.

Example scenario_warning_callback :
  let it := after (calls [OpWarnSensor; OpSet MORNING 2]) (new_item 7) in
  updates it = [WARNING].
Proof. vm_compute. reflexivity. Qed.

(** ** Numbers: the boolean comparisons *)

Lemma Qltb_true (x y : Q) : Qltb x y = true ↔ (x < y)%Q.
Proof.
  unfold Qltb. rewrite negb_true_iff, <- not_true_iff_false, Qle_bool_iff.
  split; [apply Qnot_le_lt | apply Qlt_not_le].
Qed.

Lemma Qltb_false (x y : Q) : Qltb x y = false ↔ (y <= x)%Q.
Proof.
  unfold Qltb. rewrite negb_false_iff. apply Qle_bool_iff.
Qed.

Lemma Qeq_bool_false (x y : Q) : Qeq_bool x y = false ↔ ¬ (x == y)%Q.
Proof.
  rewrite <- not_true_iff_false, Qeq_bool_iff. reflexivity.
Qed.

(** ** Dictionaries that differ by defaulted keys *)

Lemma zero_extends_refl (n : gmap Z Q) : zero_extends n n.
Proof. intros q. by left. Qed.

Lemma zero_extends_trans (n1 n2 n3 : gmap Z Q) :
  zero_extends n1 n2 → zero_extends n2 n3 → zero_extends n1 n3.
Proof.
  intros H12 H23 q.
  destruct (H12 q) as [E12 | [N1 S2]], (H23 q) as [E23 | [N2 S3]].
  - left. congruence.
  - right. split; congruence.
  - right. split; congruence.
  - congruence.
Qed.

Lemma zero_extends_number_of (n n' : gmap Z Q) (q : Z) :
  zero_extends n n' → number_of n' q = number_of n q.
Proof.
  intros H. unfold number_of.
  destruct (H q) as [E | [N S]].
  - by rewrite E.
  - by rewrite N, S.
Qed.

Lemma zero_extends_lookup_Some (n n' : gmap Z Q) (q : Z) (v : Q) :
  zero_extends n n' → n !! q = Some v → n' !! q = Some v.
Proof.
  intros H Hq. destruct (H q) as [E | [N _]]; congruence.
Qed.

Lemma zero_extends_setdefault (n : gmap Z Q) (q : Z) :
  n !! q = None → zero_extends n (<[q := 0%Q]> n).
Proof.
  intros Hq k. destruct (decide (q = k)) as [-> | Hne].
  - right. by rewrite lookup_insert_eq.
  - left. by rewrite lookup_insert_ne.
Qed.

Lemma zero_extends_non_negative (n n' : gmap Z Q) :
  zero_extends n n' →
  map_Forall (λ _ v, (0 <= v)%Q) n → map_Forall (λ _ v, (0 <= v)%Q) n'.
Proof.
  intros H Hn q v Hq.
  destruct (H q) as [E | [_ S]].
  - apply (Hn q). congruence.
  - assert (v = 0%Q) as -> by congruence. apply Qle_refl.
Qed.

Lemma reads_only_refl (it : InventoryManagerItem) : reads_only it it.
Proof. split; [reflexivity | split; [apply zero_extends_refl | split; reflexivity]]. Qed.

Lemma reads_only_trans (it1 it2 it3 : InventoryManagerItem) :
  reads_only it1 it2 → reads_only it2 it3 → reads_only it1 it3.
Proof.
  intros (T12 & N12 & E12 & U12) (T23 & N23 & E23 & U23).
  split; [congruence | split; [| split; congruence]].
  eapply zero_extends_trans; eassumption.
Qed.

Lemma reads_only_refreshes (it it' : InventoryManagerItem) :
  reads_only it it' → refreshes it it'.
Proof.
  intros (T & N & E & U). split; [assumption | split; [assumption |]].
  intros et. unfold registered. by rewrite E.
Qed.

Lemma refreshes_refl (it : InventoryManagerItem) : refreshes it it.
Proof. apply reads_only_refreshes, reads_only_refl. Qed.

Lemma refreshes_trans (it1 it2 it3 : InventoryManagerItem) :
  refreshes it1 it2 → refreshes it2 it3 → refreshes it1 it3.
Proof.
  intros (T12 & N12 & E12) (T23 & N23 & E23).
  split; [congruence | split].
  - eapply zero_extends_trans; eassumption.
  - intros et. by rewrite E23.
Qed.

(** ** Running a computation *)

Lemma bind_returned {A B} (m : M A) (k : A → M B) it a it' :
  m it = (Returned a, it') → bind m k it = k a it'.
Proof. intros H. unfold bind. by rewrite H. Qed.

Lemma bind_raised {A B} (m : M A) (k : A → M B) it e it' :
  m it = (Raised e, it') → bind m k it = (Raised e, it').
Proof. intros H. unfold bind. by rewrite H. Qed.

Lemma try_except_returned {A} (body handler : M A) caught it a it' :
  body it = (Returned a, it') → try_except body caught handler it = (Returned a, it').
Proof. intros H. unfold try_except. by rewrite H. Qed.

Lemma try_except_caught {A} (body handler : M A) caught it e it' :
  body it = (Raised e, it') → caught e = true →
  try_except body caught handler it = handler it'.
Proof. intros H C. unfold try_except. by rewrite H, C. Qed.

(** ** Reading numbers *)

Lemma get_spec (q : Z) (it : InventoryManagerItem) :
  ∃ it', get q it = (Returned (number_of (_numbers it) q), it') ∧ reads_only it it'.
Proof.
  unfold get, number_of. destruct (_numbers it !! q) as [v |] eqn:Hq; simpl.
  - exists it. split; [reflexivity | apply reads_only_refl].
  - eexists. split; [reflexivity |].
    split; [reflexivity | split; [| split; reflexivity]].
    simpl. by apply zero_extends_setdefault.
Qed.

Lemma reads_only_number_of (it it' : InventoryManagerItem) (q : Z) :
  reads_only it it' → number_of (_numbers it') q = number_of (_numbers it) q.
Proof. intros (_ & N & _). by apply zero_extends_number_of. Qed.

Lemma refreshes_number_of (it it' : InventoryManagerItem) (q : Z) :
  refreshes it it' → number_of (_numbers it') q = number_of (_numbers it) q.
Proof. intros (_ & N & _). by apply zero_extends_number_of. Qed.

Lemma result_get (q : Z) (it : InventoryManagerItem) :
  result (get q) it = Returned (number_of (_numbers it) q).
Proof.
  destruct (get_spec q it) as (it' & E & _). unfold result. by rewrite E.
Qed.

Lemma sum_get_spec (ts : list Z) (acc : Q) (it : InventoryManagerItem) :
  ∃ it', sum_get acc ts it
         = (Returned (fold_left Qplus (map (number_of (_numbers it)) ts) acc), it')
       ∧ reads_only it it'.
Proof.
  revert acc it. induction ts as [| t ts IH]; intros acc it; simpl.
  - exists it. split; [reflexivity | apply reads_only_refl].
  - destruct (get_spec t it) as (it1 & E1 & R1).
    destruct (IH (acc + number_of (_numbers it) t)%Q it1) as (it2 & E2 & R2).
    exists it2. split; [| eapply reads_only_trans; eassumption].
    rewrite (bind_returned _ _ _ _ _ E1), E2.
    do 3 f_equal. apply map_ext. intros q. by apply reads_only_number_of.
Qed.

(** The number [daily_consumption] computes from a dictionary. *)
Lemma daily_consumption_spec (it : InventoryManagerItem) :
  ∃ it', daily_consumption it
         = (Returned (0 + number_of (_numbers it) MORNING
                        + number_of (_numbers it) NOON
                        + number_of (_numbers it) EVENING
                        + number_of (_numbers it) NIGHT)%Q, it')
       ∧ reads_only it it'.
Proof.
  destruct (sum_get_spec [MORNING; NOON; EVENING; NIGHT] 0%Q it) as (it' & E & R).
  exists it'. split; [| assumption].
  unfold daily_consumption. apply try_except_returned.
  by rewrite (bind_returned _ _ _ _ _ E).
Qed.

(** The handler of [daily_consumption]: a body that raises one of the two
    exceptions it names yields 0. *)
Lemma daily_consumption_handler (body : M Q) it e it' :
  body it = (Raised e, it') → e = KeyError ∨ e = AttributeError →
  try_except body caught_by_daily_consumption (ret 0%Q) it = (Returned 0%Q, it').
Proof.
  intros H He. rewrite (try_except_caught _ _ _ _ _ _ H); [reflexivity |].
  by destruct He as [-> | ->].
Qed.

Lemma days_remaining_spec (it : InventoryManagerItem) :
  ∃ it' supply daily,
    result (get SUPPLY) it = Returned supply ∧
    result daily_consumption it = Returned daily ∧
    days_remaining it
    = (Returned (if Qltb 0 daily then (supply / daily)%Q else 10000%Q), it') ∧
    reads_only it it'.
Proof.
  destruct (get_spec SUPPLY it) as (it1 & E1 & R1).
  destruct (daily_consumption_spec it) as (it0 & E0 & _).
  destruct (daily_consumption_spec it1) as (it2 & E2 & R2).
  rewrite !(reads_only_number_of it it1) in E2 by assumption.
  eexists _, _, _. split; [apply result_get |].
  split; [unfold result; by rewrite E0 |].
  unfold days_remaining.
  rewrite (bind_returned _ _ _ _ _ E1), (bind_returned _ _ _ _ _ E2).
  set (daily := (0 + _ + _ + _ + _)%Q).
  destruct (Qltb 0 daily) eqn:Hd.
  - unfold py_truediv.
    assert (Qeq_bool daily 0 = false) as ->.
    { apply Qeq_bool_false. apply Qltb_true in Hd. intros Hz.
      rewrite Hz in Hd. by apply Qlt_irrefl in Hd. }
    split; [reflexivity | eapply reads_only_trans; eassumption].
  - split; [reflexivity | eapply reads_only_trans; eassumption].
Qed.

(** ** Sub-entity updates and notification *)

Lemma registered_true (it : InventoryManagerItem) (et : Z) :
  registered it et = true ↔ is_Some (entity it !! et).
Proof. unfold registered. apply bool_decide_eq_true. Qed.

Lemma registered_rewrite_slot (it : InventoryManagerItem) (slot et : Z) (sub : sub_entity) :
  is_Some (entity it !! slot) →
  registered (with_entity (<[slot := sub]> (entity it)) it) et = registered it et.
Proof.
  intros Hslot. unfold registered. apply bool_decide_ext. simpl.
  destruct (decide (slot = et)) as [-> | Hne].
  - rewrite lookup_insert_eq. split; [by intros _ | by eexists].
  - by rewrite lookup_insert_ne.
Qed.

Lemma rewrite_slot_spec (it0 it : InventoryManagerItem) (slot : Z) (sub : sub_entity) :
  is_Some (entity it0 !! slot) → reads_only it0 it →
  refreshes it0 (with_entity (<[slot := sub]> (entity it)) it) ∧
  updates (with_entity (<[slot := sub]> (entity it)) it) = updates it0.
Proof.
  intros Hslot (T & N & E & U).
  split; [| exact U].
  split; [exact T | split; [exact N |]].
  intros et. rewrite registered_rewrite_slot by (by rewrite E).
  unfold registered. by rewrite E.
Qed.

Lemma update_spec (slot : Z) (sub : sub_entity) (it : InventoryManagerItem) :
  is_Some (entity it !! slot) →
  ∃ it', update slot sub it = (Returned tt, it') ∧
         refreshes it it' ∧ updates it' = updates it.
Proof.
  intros Hslot.
  destruct (days_remaining_spec it) as (it1 & supply & daily & _ & _ & E1 & R1).
  destruct sub as [w | p]; simpl.
  - unfold WarnSensor_update.
    rewrite (bind_returned _ _ _ _ _ E1).
    eexists. split; [reflexivity |]. by apply rewrite_slot_spec.
  - unfold EmptyPredictionSensor_update.
    rewrite (bind_returned _ _ _ _ _ E1).
    eexists. split; [reflexivity |]. by apply rewrite_slot_spec.
Qed.

Lemma notify_spec (et : Z) (it : InventoryManagerItem) :
  ∃ it', notify et it = (Returned tt, it') ∧
         refreshes it it' ∧
         updates it' = updates it ++ (if registered it et then [et] else []).
Proof.
  unfold notify. destruct (entity it !! et) as [sub |] eqn:Het.
  - assert (registered it et = true) as -> by (apply registered_true; eauto).
    set (it1 := with_updates (updates it ++ [et]) it).
    destruct (update_spec et sub it1) as (it' & E & R & U).
    { simpl. rewrite Het. eauto. }
    exists it'. split; [| split].
    + unfold bind, modify. exact E.
    + destruct R as (T & N & G). split; [exact T | split; [exact N | exact G]].
    + exact U.
  - assert (registered it et = false) as ->.
    { apply not_true_iff_false. rewrite registered_true, Het. by intros [? ?]. }
    exists it. split; [reflexivity | split; [apply refreshes_refl |]].
    by rewrite app_nil_r.
Qed.

Lemma notify_all_spec (ets : list Z) (it : InventoryManagerItem) :
  ∃ it', notify_all ets it = (Returned tt, it') ∧
         refreshes it it' ∧
         updates it' = updates it ++ List.filter (registered it) ets.
Proof.
  revert it. induction ets as [| et ets IH]; intros it; simpl.
  - exists it. split; [reflexivity | split; [apply refreshes_refl |]].
    by rewrite app_nil_r.
  - destruct (notify_spec et it) as (it1 & E1 & R1 & U1).
    destruct (IH it1) as (it2 & E2 & R2 & U2).
    exists it2. split; [| split].
    + by rewrite (bind_returned _ _ _ _ _ E1).
    + eapply refreshes_trans; eassumption.
    + rewrite U2, U1, <- app_assoc. f_equal.
      assert (List.filter (registered it1) ets = List.filter (registered it) ets) as ->.
      { apply List.filter_ext. intros x. apply R1. }
      by destruct (registered it et).
Qed.

(** ** Writing numbers *)

(** What [set] stores for a value. *)
Lemma set_spec (spec : Z) (val : Q) (it : InventoryManagerItem) :
  ∃ it', set spec val it = (Returned tt, it') ∧
         sensor_before_empty it' = sensor_before_empty it ∧
         zero_extends (<[spec := if Qltb val 0 then 0%Q else val]> (_numbers it))
                      (_numbers it') ∧
         (∀ et, registered it' et = registered it et) ∧
         updates it' = updates it
                       ++ List.filter (registered it) [EMPTYPREDICTION; WARNING].
Proof.
  set (stored := if Qltb val 0 then 0%Q else val).
  set (it1 := with_numbers (<[spec := stored]> (_numbers it)) it).
  assert ((if Qltb val 0 then store spec 0%Q else store spec val) it
          = (Returned tt, it1)) as E1.
  { unfold it1, stored. by destruct (Qltb val 0). }
  destruct (notify_all_spec [EMPTYPREDICTION; WARNING] it1) as (it' & E & (T & N & G) & U).
  exists it'. unfold set. rewrite (bind_returned _ _ _ _ _ E1).
  split; [exact E | split; [exact T | split; [exact N | split; [exact G | exact U]]]].
Qed.

Lemma set_lookup (spec : Z) (val : Q) (it : InventoryManagerItem) :
  _numbers (after (set spec val) it) !! spec
  = Some (if Qltb val 0 then 0%Q else val).
Proof.
  destruct (set_spec spec val it) as (it' & E & _ & N & _).
  unfold after. rewrite E. simpl.
  apply (zero_extends_lookup_Some _ _ _ _ N). apply lookup_insert_eq.
Qed.

Lemma set_number_of_other (spec q : Z) (val : Q) (it : InventoryManagerItem) :
  spec ≠ q →
  number_of (_numbers (after (set spec val) it)) q = number_of (_numbers it) q.
Proof.
  intros Hne. destruct (set_spec spec val it) as (it' & E & _ & N & _).
  unfold after. rewrite E. simpl.
  rewrite (zero_extends_number_of _ _ _ N).
  unfold number_of. by rewrite lookup_insert_ne.
Qed.

(** ** Storing and reading back *)

(** C4. After [set(q, v)], [get(q)] returns [v] when [v >= 0] and returns 0
    when [v < 0]; this holds for every tag [q], the storable ones included. *)
Theorem set_then_get (q : Z) (v : Q) (it : InventoryManagerItem) :
  ((0 <= v)%Q → result (get q) (after (set q v) it) = Returned v) ∧
  ((v < 0)%Q → result (get q) (after (set q v) it) = Returned 0%Q).
Proof.
  rewrite result_get. unfold number_of. rewrite set_lookup. simpl.
  split; intros Hv.
  - apply Qltb_false in Hv. by rewrite Hv.
  - apply Qltb_true in Hv. by rewrite Hv.
Qed.

Lemma set_then_get_witness :
  ((0 <= 3)%Q ∧
   result (get SUPPLY) (after (set SUPPLY 3) (new_item 7)) = Returned 3%Q) ∧
  ((-2 < 0)%Q ∧
   result (get SUPPLY) (after (set SUPPLY (-2)) (new_item 7)) = Returned 0%Q).
Proof.
  split.
  - split; [discriminate |].
    apply (proj1 (set_then_get SUPPLY 3 (new_item 7))). discriminate.
  - split; [reflexivity |].
    apply (proj2 (set_then_get SUPPLY (-2) (new_item 7))). reflexivity.
Defined.

(** C10. [set(q, v)] leaves what [get(q')] returns unchanged for every tag
    [q'] other than [q]. *)
Theorem set_frame (q q' : Z) (v : Q) (it : InventoryManagerItem) :
  q ≠ q' → result (get q') (after (set q v) it) = result (get q') it.
Proof.
  intros Hne. rewrite !result_get. f_equal. by apply set_number_of_other.
Qed.

Lemma set_frame_witness :
  MORNING ≠ SUPPLY ∧
  result (get SUPPLY) (after (set MORNING 2) (after (set SUPPLY 9) (new_item 7)))
  = result (get SUPPLY) (after (set SUPPLY 9) (new_item 7)).
Proof.
  split; [discriminate |].
  apply (set_frame MORNING SUPPLY 2 (after (set SUPPLY 9) (new_item 7))).
  discriminate.
Defined.

(** ** Consuming *)





Lemma py_in_doses (dose : Z) : py_in dose doses = true ↔ dose ∈ doses.
Proof.
  unfold py_in. rewrite existsb_exists. split.
  - intros (x & Hx & Heq). apply Z.eqb_eq in Heq. subst x. by apply list_elem_of_In.
  - intros Hin. exists dose. split; [by apply list_elem_of_In | apply Z.eqb_refl].
Qed.

(** C6. [take_dose] with a tag outside MORNING, NOON, EVENING, NIGHT returns
    without raising and leaves the item exactly as it was; with one of the
    four it reads [get(dose)] and passes that amount to [take_number]. *)
Theorem take_dose_spec (dose : Z) (it : InventoryManagerItem) :
  (dose ∉ doses → take_dose dose it = (Returned tt, it)) ∧
  (dose ∈ doses →
   take_dose dose it = (let! amount := get dose in take_number amount) it).
Proof.
  unfold take_dose. fold doses. split; intros H.
  - assert (py_in dose doses = false) as ->; [| reflexivity].
    apply not_true_iff_false. by rewrite py_in_doses.
  - apply py_in_doses in H. by rewrite H.
Qed.

Lemma take_dose_spec_witness :
  ((SUPPLY ∉ doses) ∧
   take_dose SUPPLY (after (set SUPPLY 3) (new_item 7))
   = (Returned tt, after (set SUPPLY 3) (new_item 7))) ∧
  ((MORNING ∈ doses) ∧
   take_dose MORNING (new_item 7)
   = (let! amount := get MORNING in take_number amount) (new_item 7)).
Proof.
  split.
  - assert (SUPPLY ∉ doses) as H.
    { intros Hin. apply py_in_doses in Hin. discriminate Hin. }
    split; [exact H |].
    exact (proj1 (take_dose_spec SUPPLY (after (set SUPPLY 3) (new_item 7))) H).
  - assert (MORNING ∈ doses) as H by (apply py_in_doses; reflexivity).
    split; [exact H |].
    exact (proj2 (take_dose_spec MORNING (new_item 7)) H).
Defined.

(** ** The invariant of the stored numbers *)

Lemma set_non_negative (spec : Z) (val : Q) (it : InventoryManagerItem) :
  non_negative it →
  ∃ it', set spec val it = (Returned tt, it') ∧ non_negative it'.
Proof.
  intros Hinv. destruct (set_spec spec val it) as (it' & E & _ & N & _).
  exists it'. split; [exact E |].
  apply (zero_extends_non_negative _ _ N).
  apply map_Forall_insert_2; [| exact Hinv].
  destruct (Qltb val 0) eqn:Hlt; [apply Qle_refl | by apply Qltb_false].
Qed.

Lemma get_non_negative (q : Z) (it : InventoryManagerItem) :
  non_negative it →
  ∃ v it', get q it = (Returned v, it') ∧ non_negative it' ∧ (0 <= v)%Q.
Proof.
  intros Hinv. destruct (get_spec q it) as (it' & E & (_ & N & _)).
  eexists _, it'. split; [exact E | split].
  - by apply (zero_extends_non_negative _ _ N).
  - unfold number_of. destruct (_numbers it !! q) as [v |] eqn:Hq; simpl.
    + by apply (Hinv q).
    + apply Qle_refl.
Qed.

Lemma take_number_non_negative (number : Q) (it : InventoryManagerItem) :
  non_negative it →
  ∃ it', take_number number it = (Returned tt, it') ∧ non_negative it'.
Proof.
  intros Hinv. unfold take_number.
  destruct (Qeq_bool number 0); simpl.
  - exists it. by split.
  - destruct (get_non_negative SUPPLY it Hinv) as (s & it1 & E1 & Hinv1 & _).
    rewrite (bind_returned _ _ _ _ _ E1). by apply set_non_negative.
Qed.

Lemma take_dose_non_negative (dose : Z) (it : InventoryManagerItem) :
  non_negative it →
  ∃ it', take_dose dose it = (Returned tt, it') ∧ non_negative it'.
Proof.
  intros Hinv. unfold take_dose.
  destruct (py_in dose _); simpl.
  - destruct (get_non_negative dose it Hinv) as (amount & it1 & E1 & Hinv1 & _).
    rewrite (bind_returned _ _ _ _ _ E1). by apply take_number_non_negative.
  - exists it. by split.
Qed.

Lemma call_non_negative (op : operation) (it : InventoryManagerItem) :
  non_negative it →
  ∃ it', call op it = (Returned tt, it') ∧ non_negative it'.
Proof.
  intros Hinv. destruct op as [spec val | entity_type | dose | number | |]; simpl.
  - by apply set_non_negative.
  - destruct (get_non_negative entity_type it Hinv) as (v & it1 & E1 & Hinv1 & _).
    exists it1. split; [| exact Hinv1].
    unfold discard. by rewrite (bind_returned _ _ _ _ _ E1).
  - by apply take_dose_non_negative.
  - by apply take_number_non_negative.
  - eexists. split; [reflexivity | exact Hinv].
  - eexists. split; [reflexivity | exact Hinv].
Qed.

Lemma calls_non_negative (ops : list operation) (it : InventoryManagerItem) :
  non_negative it →
  ∃ it', calls ops it = (Returned tt, it') ∧ non_negative it'.
Proof.
  revert it. induction ops as [| op ops IH]; intros it Hinv; simpl.
  - exists it. by split.
  - destruct (call_non_negative op it Hinv) as (it1 & E1 & Hinv1).
    rewrite (bind_returned _ _ _ _ _ E1). by apply IH.
Qed.

Lemma new_item_non_negative (threshold : Q) : non_negative (new_item threshold).
Proof. unfold non_negative. simpl. apply map_Forall_empty. Qed.

(** ** Notification *)


(** ** Tags that name no stored number *)



(** ** The warning entity *)

(** What [WarnSensor.update] leaves in the sensor: the branch for an
    unavailable reading is never taken, the sensor becomes available and
    its flag is the comparison of the reading with the threshold. *)
Lemma WarnSensor_update_spec (slot : Z) (w : WarnSensor) (it : InventoryManagerItem) :
  ∃ d it', result days_remaining it = Returned d ∧
           WarnSensor_update slot w it = (Returned tt, it') ∧
           entity it' !! slot
           = Some (WarnEntity (mkWarnSensor (Qltb d (sensor_before_empty it)) true)).
Proof.
  destruct (days_remaining_spec it) as (it1 & supply & daily & _ & _ & E1 & (T & _)).
  eexists _, _. split; [unfold result; by rewrite E1 |].
  unfold WarnSensor_update. rewrite (bind_returned _ _ _ _ _ E1).
  split; [reflexivity |]. simpl. rewrite lookup_insert_eq. by rewrite T.
Qed.

(** With no consumption the reading is the sentinel, and the flag is on
    exactly when the threshold lies above 10000. *)
Lemma WarnSensor_update_at_sentinel (slot : Z) (w : WarnSensor) (it : InventoryManagerItem) :
  result days_remaining it = Returned 10000%Q →
  entity (after (WarnSensor_update slot w) it) !! slot
  = Some (WarnEntity (mkWarnSensor (Qltb 10000 (sensor_before_empty it)) true)).
Proof.
  intros Hd. destruct (WarnSensor_update_spec slot w it) as (d & it' & Hd' & E & Hslot).
  unfold after. rewrite E. simpl. rewrite Hslot.
  rewrite Hd in Hd'. by injection Hd' as <-.
Qed.

(** C2, evaluated on the code.  An item with a threshold of 20000 days, a
    supply of 5 and no dose: [daily_consumption] is 0, [days_remaining] is the
    sentinel 10000, and after the [update] that [set] triggers the warning
    sensor is on. *)
Example warning_on_at_sentinel :
  let it := after (calls [OpWarnSensor; OpSet SUPPLY 5]) (new_item 20000) in
  result daily_consumption it = Returned 0%Q ∧
  result days_remaining it = Returned 10000%Q ∧
  updates it = [WARNING] ∧
  warning_is_on it = Some true ∧
  warning_is_on (after (update WARNING (WarnEntity (mkWarnSensor false false))) it)
  = Some true.
Proof. vm_compute. repeat split; reflexivity. Qed.

(** ** Reading is observationally pure *)

Lemma result_daily_consumption (it : InventoryManagerItem) :
  result daily_consumption it = Returned (doses_total (_numbers it)).
Proof.
  destruct (daily_consumption_spec it) as (it' & E & _).
  unfold result. by rewrite E.
Qed.

Lemma result_days_remaining (it : InventoryManagerItem) :
  result days_remaining it
  = Returned (if Qltb 0 (doses_total (_numbers it))
              then (number_of (_numbers it) SUPPLY / doses_total (_numbers it))%Q
              else 10000%Q).
Proof.
  destruct (days_remaining_spec it) as (it' & supply & daily & Hs & Hd & E & _).
  rewrite result_get in Hs. rewrite result_daily_consumption in Hd.
  injection Hs as <-. injection Hd as <-.
  unfold result. by rewrite E.
Qed.

Lemma after_get_reads_only (q : Z) (it : InventoryManagerItem) :
  reads_only it (after (get q) it).
Proof.
  destruct (get_spec q it) as (it' & E & R). unfold after. by rewrite E.
Qed.

Lemma after_days_remaining_reads_only (it : InventoryManagerItem) :
  reads_only it (after days_remaining it).
Proof.
  destruct (days_remaining_spec it) as (it' & s & d & _ & _ & E & R).
  unfold after. by rewrite E.
Qed.

Lemma doses_total_agree (n n' : gmap Z Q) :
  (∀ q, number_of n' q = number_of n q) → doses_total n' = doses_total n.
Proof. intros H. unfold doses_total. by rewrite !H. Qed.

Lemma days_remaining_agree (it it' : InventoryManagerItem) :
  (∀ q, number_of (_numbers it') q = number_of (_numbers it) q) →
  result days_remaining it' = result days_remaining it.
Proof.
  intros H. rewrite !result_days_remaining.
  by rewrite (doses_total_agree _ _ H), H.
Qed.

(** X1. [get(q)] leaves [q] stored with the number it returned, 0 for a key
    that was absent, and a second [get(q)] returns the same number and
    leaves the item as the first one left it. *)
Theorem get_settles_the_key (q : Z) (it : InventoryManagerItem) :
  ∃ v, get q it = (Returned v, after (get q) it) ∧
       _numbers (after (get q) it) !! q = Some v ∧
       get q (after (get q) it) = (Returned v, after (get q) it) ∧
       v = default 0%Q (_numbers it !! q).
Proof.
  unfold after, get.
  destruct (_numbers it !! q) as [v |] eqn:Hq; simpl.
  - exists v. rewrite Hq. by repeat split.
  - exists 0%Q. rewrite lookup_insert_eq. by repeat split.
Qed.

(** X2. Reading changes no reading: after [get(q)], after
    [daily_consumption()] and after [days_remaining()], every [get(q')]
    returns what it returned before, the same sub-entities are registered
    and none has been updated, although keys may have been added. *)
Theorem reading_changes_no_reading (q q' : Z) (it : InventoryManagerItem) :
  Forall (λ it', result (get q') it' = result (get q') it ∧
                 entity it' = entity it ∧ updates it' = updates it)
         [after (get q) it; after daily_consumption it; after days_remaining it].
Proof.
  assert (∀ it', reads_only it it' →
                 result (get q') it' = result (get q') it ∧
                 entity it' = entity it ∧ updates it' = updates it) as H.
  { intros it' R. rewrite !result_get, (reads_only_number_of _ _ _ R).
    destruct R as (_ & _ & E & U). by repeat split. }
  constructor; [| constructor; [| constructor; [| constructor]]]; apply H.
  - apply after_get_reads_only.
  - destruct (daily_consumption_spec it) as (it' & E & R).
    unfold after. by rewrite E.
  - apply after_days_remaining_reads_only.
Qed.

(** X3. The two metrics give the same answer when asked again:
    [daily_consumption()] and [days_remaining()] called right after
    [days_remaining()] return what they would have returned instead of it. *)
Theorem metrics_are_repeatable (it : InventoryManagerItem) :
  result days_remaining (after days_remaining it) = result days_remaining it ∧
  result daily_consumption (after days_remaining it) = result daily_consumption it.
Proof.
  pose proof (after_days_remaining_reads_only it) as R.
  split.
  - apply days_remaining_agree. intros q. by apply reads_only_number_of.
  - rewrite !result_daily_consumption. f_equal.
    apply doses_total_agree. intros q. by apply reads_only_number_of.
Qed.

(** ** The metrics of an item whose numbers are non-negative *)

Lemma number_of_non_negative (it : InventoryManagerItem) (q : Z) :
  non_negative it → (0 <= number_of (_numbers it) q)%Q.
Proof.
  intros Hinv. unfold number_of.
  destruct (_numbers it !! q) as [v |] eqn:Hq; simpl.
  - by apply (Hinv q).
  - apply Qle_refl.
Qed.

Lemma reachable_non_negative (threshold : Q) (ops : list operation) :
  non_negative (after (calls ops) (new_item threshold)).
Proof.
  destruct (calls_non_negative ops (new_item threshold)) as (it' & E & Hinv).
  { apply new_item_non_negative. }
  unfold after. by rewrite E.
Qed.



Lemma forecast_non_negative (it : InventoryManagerItem) :
  non_negative it →
  ∃ r, result days_remaining it = Returned r ∧ (0 <= r)%Q.
Proof.
  intros Hinv. eexists. split; [apply result_days_remaining |].
  destruct (Qltb 0 _) eqn:Hd.
  - apply Qltb_true in Hd. apply Qle_shift_div_l; [exact Hd |].
    pose proof (number_of_non_negative it SUPPLY Hinv). lra.
  - discriminate.
Qed.





(** ** Taking from the supply *)

(** What [set] stores when it is handed a negative number. *)
Lemma set_number_of (spec q : Z) (val : Q) (it : InventoryManagerItem) :
  number_of (_numbers (after (set spec val) it)) q
  = if decide (spec = q) then (if Qltb val 0 then 0%Q else val)
    else number_of (_numbers it) q.
Proof.
  destruct (decide (spec = q)) as [<- | Hne].
  - unfold number_of. by rewrite set_lookup.
  - by apply set_number_of_other.
Qed.

Lemma after_set_updates (spec : Z) (val : Q) (it : InventoryManagerItem) :
  updates (after (set spec val) it)
  = updates it ++ List.filter (registered it) [EMPTYPREDICTION; WARNING].
Proof.
  destruct (set_spec spec val it) as (it' & E & _ & _ & _ & U).
  unfold after. by rewrite E.
Qed.

Lemma after_set_registered (spec : Z) (val : Q) (it : InventoryManagerItem) (et : Z) :
  registered (after (set spec val) it) et = registered it et.
Proof.
  destruct (set_spec spec val it) as (it' & E & _ & _ & G & _).
  unfold after. by rewrite E.
Qed.

Lemma after_set_threshold (spec : Z) (val : Q) (it : InventoryManagerItem) :
  sensor_before_empty (after (set spec val) it) = sensor_before_empty it.
Proof.
  destruct (set_spec spec val it) as (it' & E & T & _).
  unfold after. by rewrite E.
Qed.

(** [take_number] with a number other than 0 is [set] on the item that
    [get(SUPPLY)] leaves. *)
Lemma take_number_unfold (number : Q) (it : InventoryManagerItem) :
  ¬ (number == 0)%Q →
  take_number number it
  = set SUPPLY (number_of (_numbers it) SUPPLY - number)%Q (after (get SUPPLY) it).
Proof.
  intros Hnz. unfold take_number.
  apply Qeq_bool_false in Hnz. rewrite Hnz. simpl.
  destruct (get_spec SUPPLY it) as (it1 & E1 & _).
  unfold after. by rewrite (bind_returned _ _ _ _ _ E1), E1.
Qed.

Lemma take_number_zero_eq (number : Q) (it : InventoryManagerItem) :
  (number == 0)%Q → take_number number it = (Returned tt, it).
Proof.
  intros Hz. unfold take_number.
  apply Qeq_bool_iff in Hz. by rewrite Hz.
Qed.

Lemma take_number_number_of (number : Q) (q : Z) (it : InventoryManagerItem) :
  ¬ (number == 0)%Q →
  number_of (_numbers (after (take_number number) it)) q
  = if decide (SUPPLY = q)
    then (if Qltb (number_of (_numbers it) SUPPLY - number) 0 then 0%Q
          else (number_of (_numbers it) SUPPLY - number)%Q)
    else number_of (_numbers it) q.
Proof.
  intros Hnz. unfold after at 1. rewrite (take_number_unfold _ _ Hnz).
  fold (after (set SUPPLY (number_of (_numbers it) SUPPLY - number)%Q)
              (after (get SUPPLY) it)).
  rewrite set_number_of. destruct (decide (SUPPLY = q)); [reflexivity |].
  apply reads_only_number_of, after_get_reads_only.
Qed.



(** X8. [take_number] changes the supply only: for every tag other than
    SUPPLY, [get] returns after [take_number(a)] what it returned before, and
    the warning threshold and the registered slots are the same. *)
Theorem take_number_frame (a : Q) (q : Z) (it : InventoryManagerItem) :
  q ≠ SUPPLY →
  result (get q) (after (take_number a) it) = result (get q) it ∧
  sensor_before_empty (after (take_number a) it) = sensor_before_empty it ∧
  ∀ et, registered (after (take_number a) it) et = registered it et.
Proof.
  intros Hq. destruct (Qeq_dec a 0) as [Hz | Hnz].
  - unfold after. rewrite (take_number_zero_eq _ _ Hz). by repeat split.
  - split; [| split].
    + rewrite !result_get, take_number_number_of by assumption.
      by destruct (decide (SUPPLY = q)).
    + unfold after at 1. rewrite (take_number_unfold _ _ Hnz).
      fold (after (set SUPPLY (number_of (_numbers it) SUPPLY - a)%Q)
                  (after (get SUPPLY) it)).
      rewrite after_set_threshold. apply after_get_reads_only.
    + intros et. unfold after at 1. rewrite (take_number_unfold _ _ Hnz).
      fold (after (set SUPPLY (number_of (_numbers it) SUPPLY - a)%Q)
                  (after (get SUPPLY) it)).
      rewrite after_set_registered. unfold registered.
      by destruct (after_get_reads_only SUPPLY it) as (_ & _ & -> & _).
Qed.

Lemma take_number_frame_witness :
  let it := after (calls [OpSet SUPPLY 5; OpSet NOON 2]) (new_item 7) in
  NOON ≠ SUPPLY ∧
  result (get NOON) (after (take_number 3) it) = result (get NOON) it ∧
  sensor_before_empty (after (take_number 3) it) = sensor_before_empty it ∧
  ∀ et, registered (after (take_number 3) it) et = registered it et.
Proof.
  split; [discriminate |].
  apply take_number_frame. discriminate.
Defined.



(** ** Taking a dose *)

Lemma doses_not_supply (dose : Z) : dose ∈ doses → dose ≠ SUPPLY.
Proof.
  intros Hin ->. apply py_in_doses in Hin. discriminate Hin.
Qed.


(** [take_dose] with a dose tag is [take_number] on the item that
    [get(dose)] leaves. *)
Lemma take_dose_unfold (dose : Z) (it : InventoryManagerItem) :
  dose ∈ doses →
  take_dose dose it
  = take_number (number_of (_numbers it) dose) (after (get dose) it).
Proof.
  intros H. unfold take_dose. fold doses.
  apply py_in_doses in H. rewrite H. simpl.
  destruct (get_spec dose it) as (it1 & E1 & _).
  unfold after. by rewrite (bind_returned _ _ _ _ _ E1), E1.
Qed.







(** X12. [take_dose] with a dose tag whose number is 0, an unset dose for
    one, returns without an update of any display: the trace of updates and
    the sub-entities are as before, and so is what every [get] returns. *)
Theorem take_dose_of_nothing_is_silent (dose : Z) (amount : Q) (it : InventoryManagerItem) :
  dose ∈ doses → result (get dose) it = Returned amount → (amount == 0)%Q →
  result (take_dose dose) it = Returned tt ∧
  updates (after (take_dose dose) it) = updates it ∧
  entity (after (take_dose dose) it) = entity it ∧
  ∀ q, result (get q) (after (take_dose dose) it) = result (get q) it.
Proof.
  intros Hin Ha Hz. rewrite result_get in Ha. injection Ha as Ha.
  unfold result, after. rewrite (take_dose_unfold _ _ Hin), Ha.
  rewrite (take_number_zero_eq _ _ Hz). cbn [fst snd].
  destruct (after_get_reads_only dose it) as (_ & N & E & U).
  split; [reflexivity | split; [exact U | split; [exact E |]]].
  intros q. fold (result (get q) (after (get dose) it)) (result (get q) it).
  rewrite !result_get. f_equal. by apply zero_extends_number_of.
Qed.

Lemma take_dose_of_nothing_is_silent_witness :
  let it := after (calls [OpWarnSensor; OpSet SUPPLY 5]) (new_item 7) in
  (NOON ∈ doses ∧ result (get NOON) it = Returned 0%Q ∧ (0 == 0)%Q) ∧
  result (take_dose NOON) it = Returned tt ∧
  updates (after (take_dose NOON) it) = updates it ∧
  entity (after (take_dose NOON) it) = entity it ∧
  ∀ q, result (get q) (after (take_dose NOON) it) = result (get q) it.
Proof.
  assert (NOON ∈ doses) as Hin by (apply py_in_doses; reflexivity).
  split.
  - split; [exact Hin | split; reflexivity].
  - apply (take_dose_of_nothing_is_silent NOON 0%Q); [exact Hin | reflexivity ..].
Defined.




(** ** The warning sensor follows the numbers *)

Lemma update_other_slot (slot k : Z) (sub : sub_entity) (it : InventoryManagerItem) :
  slot ≠ k → entity (after (update slot sub) it) !! k = entity it !! k.
Proof.
  intros Hne.
  destruct (days_remaining_spec it) as (it1 & s & d & _ & _ & E1 & (_ & _ & He & _)).
  unfold after. destruct sub as [w | p]; simpl.
  - unfold WarnSensor_update. rewrite (bind_returned _ _ _ _ _ E1). simpl.
    rewrite lookup_insert_ne by assumption. by rewrite He.
  - unfold EmptyPredictionSensor_update. rewrite (bind_returned _ _ _ _ _ E1). simpl.
    rewrite lookup_insert_ne by assumption. by rewrite He.
Qed.

Lemma notify_other_slot (et k : Z) (it : InventoryManagerItem) :
  et ≠ k → entity (after (notify et) it) !! k = entity it !! k.
Proof.
  intros Hne. unfold after, notify.
  destruct (entity it !! et) as [sub |] eqn:Het; [| reflexivity].
  unfold bind, modify.
  apply (update_other_slot et k sub (with_updates (updates it ++ [et]) it) Hne).
Qed.

Lemma notify_all_two (a b : Z) (it : InventoryManagerItem) :
  notify_all [a; b] it = (Returned tt, after (notify b) (after (notify a) it)).
Proof.
  destruct (notify_spec a it) as (it1 & E1 & _).
  destruct (notify_spec b it1) as (it2 & E2 & _).
  change (notify_all [a; b]) with (do! notify a in do! notify b in ret tt).
  rewrite (bind_returned _ _ _ _ _ E1), (bind_returned _ _ _ _ _ E2).
  unfold after. rewrite E1. cbn [snd]. by rewrite E2.
Qed.

Lemma after_notify_refreshes (et : Z) (it : InventoryManagerItem) :
  refreshes it (after (notify et) it).
Proof.
  destruct (notify_spec et it) as (it1 & E1 & R & _).
  unfold after. by rewrite E1.
Qed.

(** The sensor that [WarnSensor.update] leaves is available, and its flag
    is the comparison of the forecast, before and after alike, with the
    threshold. *)
Lemma WarnSensor_update_in_sync (slot : Z) (w : WarnSensor) (it : InventoryManagerItem) :
  is_Some (entity it !! slot) →
  ∃ d, result days_remaining it = Returned d ∧
       result days_remaining (after (WarnSensor_update slot w) it) = Returned d ∧
       result (WarnSensor_update slot w) it = Returned tt ∧
       entity (after (WarnSensor_update slot w) it) !! slot
       = Some (WarnEntity (mkWarnSensor (Qltb d (sensor_before_empty it)) true)).
Proof.
  intros Hslot.
  destruct (WarnSensor_update_spec slot w it) as (d & it' & Hd & E & He).
  destruct (update_spec slot (WarnEntity w) it Hslot) as (it'' & E' & R & _).
  simpl in E'. rewrite E in E'. injection E' as <-.
  exists d. unfold result at 3. unfold after. rewrite E. cbn [fst snd].
  split; [exact Hd | split; [| split; [reflexivity | exact He]]].
  rewrite <- Hd. apply days_remaining_agree.
  intros q. by apply refreshes_number_of.
Qed.

(** After [set], the sensor registered under WARNING has been brought up to
    date with the numbers as [set] leaves them. *)
Lemma set_warning_spec (spec : Z) (val : Q) (w : WarnSensor) (it : InventoryManagerItem) :
  entity it !! WARNING = Some (WarnEntity w) →
  ∃ d, result days_remaining (after (set spec val) it) = Returned d ∧
       entity (after (set spec val) it) !! WARNING
       = Some (WarnEntity (mkWarnSensor (Qltb d (sensor_before_empty it)) true)).
Proof.
  intros Hw.
  set (it1 := with_numbers (<[spec := if Qltb val 0 then 0%Q else val]> (_numbers it)) it).
  assert (set spec val it = notify_all [EMPTYPREDICTION; WARNING] it1) as Hset.
  { unfold set, bind, it1. by destruct (Qltb val 0). }
  set (it2 := after (notify EMPTYPREDICTION) it1).
  assert (entity it2 !! WARNING = Some (WarnEntity w)) as Hw2.
  { unfold it2. rewrite notify_other_slot by discriminate. exact Hw. }
  assert (sensor_before_empty it2 = sensor_before_empty it) as Ht2.
  { unfold it2. by destruct (after_notify_refreshes EMPTYPREDICTION it1) as (-> & _). }
  set (it3 := with_updates (updates it2 ++ [WARNING]) it2).
  destruct (WarnSensor_update_in_sync WARNING w it3) as (d & _ & Hd & _ & He).
  { simpl. rewrite Hw2. eauto. }
  assert (after (set spec val) it = after (WarnSensor_update WARNING w) it3) as ->.
  { unfold after at 1. rewrite Hset, notify_all_two. cbn [snd]. fold it2.
    unfold after at 1. unfold notify. rewrite Hw2. reflexivity. }
  exists d. split; [exact Hd |].
  rewrite He. simpl. by rewrite Ht2.
Qed.





Lemma after_set_non_negative (spec : Z) (val : Q) (it : InventoryManagerItem) :
  non_negative it → non_negative (after (set spec val) it).
Proof.
  intros Hinv. destruct (set_non_negative spec val it Hinv) as (it' & E & Hinv').
  unfold after. by rewrite E.
Qed.

(** X18. A threshold of 0 days or less never warns: on an item whose
    numbers are non-negative, with a WarnSensor registered under WARNING and
    a threshold [<= 0], the sensor is off after every [set]. *)
Theorem no_warning_without_threshold
    (spec : Z) (val : Q) (w : WarnSensor) (it : InventoryManagerItem) :
  entity it !! WARNING = Some (WarnEntity w) →
  non_negative it →
  (sensor_before_empty it <= 0)%Q →
  warning_is_on (after (set spec val) it) = Some false.
Proof.
  intros Hw Hinv Hthr.
  destruct (set_warning_spec spec val w it Hw) as (r & Hr & He).
  destruct (forecast_non_negative (after (set spec val) it)) as (r' & Hr' & Hpos).
  { by apply after_set_non_negative. }
  rewrite Hr in Hr'. injection Hr' as <-.
  unfold warning_is_on. rewrite He. simpl. f_equal.
  apply Qltb_false. lra.
Qed.

Lemma no_warning_without_threshold_witness :
  let it := after (calls [OpWarnSensor; OpSet NOON 2]) (new_item 0) in
  (entity it !! WARNING = Some (WarnEntity (mkWarnSensor false true)) ∧
   non_negative it ∧ (sensor_before_empty it <= 0)%Q) ∧
  warning_is_on (after (set SUPPLY 5) it) = Some false.
Proof.
  split.
  - split; [reflexivity | split; [apply reachable_non_negative | discriminate]].
  - apply (no_warning_without_threshold SUPPLY 5 (mkWarnSensor false true));
      [reflexivity | apply reachable_non_negative | discriminate].
Defined.



(** ** Names and identifiers *)

Lemma list_ascii_of_string_app (a b : string) :
  String.list_ascii_of_string (a +:+ b)
  = String.list_ascii_of_string a ++ String.list_ascii_of_string b.
Proof. induction a as [| c a IH]; simpl; [reflexivity | by rewrite IH]. Qed.

Lemma list_ascii_of_string_inj (a b : string) :
  String.list_ascii_of_string a = String.list_ascii_of_string b → a = b.
Proof.
  intros H. rewrite <- (String.string_of_list_ascii_of_string a),
              <- (String.string_of_list_ascii_of_string b).
  by rewrite H.
Qed.

Lemma string_app_inv_tail (a b s : string) : a +:+ s = b +:+ s → a = b.
Proof.
  intros H. apply list_ascii_of_string_inj.
  apply (f_equal String.list_ascii_of_string) in H.
  rewrite !list_ascii_of_string_app in H.
  by apply app_inv_tail in H.
Qed.

Lemma string_app_assoc (a b c : string) : a +:+ (b +:+ c) = (a +:+ b) +:+ c.
Proof.
  induction a as [| x a IH]; [reflexivity |].
  change (String x (a +:+ (b +:+ c)) = String x ((a +:+ b) +:+ c)).
  by f_equal.
Qed.

Lemma lower_app (a b : string) : lower (a +:+ b) = lower a +:+ lower b.
Proof. induction a as [| c a IH]; simpl; [reflexivity | by rewrite IH]. Qed.

Lemma lower_char_idemp (c : Ascii.ascii) : lower_char (lower_char c) = lower_char c.
Proof. by destruct c as [[] [] [] [] [] [] [] []]. Qed.

Lemma lower_idemp (s : string) : lower (lower s) = lower s.
Proof.
  induction s as [| c s IH]; simpl; [reflexivity |].
  by rewrite lower_char_idemp, IH.
Qed.

(** No lowered member name ends with another one. *)
Lemma lowered_names_suffix_free (m1 m2 : member) (l : list Ascii.ascii) :
  String.list_ascii_of_string (lower (name m2))
  = l ++ String.list_ascii_of_string (lower (name m1)) →
  m1 = m2.
Proof.
  intros H. apply (f_equal (@rev _)) in H. rewrite rev_app_distr in H.
  destruct m1, m2; try reflexivity; vm_compute in H; discriminate H.
Qed.

(** X21. A unique id names one entity of one device: whatever the separator
    constant, two entity configurations with the same [UNIQUE_ID] were
    generated for the same device id and the same entity type. *)
Theorem unique_id_determines_device_and_type
    (UNDERSCORE : string) (generate_entity_id : string → string → string)
    (device1 device2 : string) (m1 m2 : member) :
  UNIQUE_ID (_generate_entity_config UNDERSCORE generate_entity_id device1 m1)
  = UNIQUE_ID (_generate_entity_config UNDERSCORE generate_entity_id device2 m2) →
  device1 = device2 ∧ m1 = m2.
Proof.
  simpl. intros H.
  assert (m1 = m2) as ->.
  { rewrite ?string_app_assoc in H.
    apply (f_equal String.list_ascii_of_string) in H.
    rewrite !(list_ascii_of_string_app _ (lower _)) in H.
    apply List.app_eq_app in H as [l [[_ H] | [_ H]]].
    - by apply lowered_names_suffix_free in H.
    - symmetry. by apply lowered_names_suffix_free in H. }
  split; [| reflexivity].
  rewrite ?string_app_assoc in H.
  apply string_app_inv_tail in H. by apply string_app_inv_tail in H.
Qed.

Lemma unique_id_determines_device_and_type_witness :
  UNIQUE_ID (_generate_entity_config "_" (λ fmt uid, uid) "aspirin-500" Noon)
  = UNIQUE_ID (_generate_entity_config "_" (λ fmt uid, uid) "aspirin-500" Noon) ∧
  "aspirin-500" = "aspirin-500" ∧ Noon = Noon.
Proof.
  split; [reflexivity |].
  apply (unique_id_determines_device_and_type "_" (λ fmt uid, uid)). reflexivity.
Defined.

(** X22. [entity_config] holds one entry for each of the seven members,
    under the member's value and generated for that member, and no entry
    under any other key: no member is lost to a clash of keys. *)
Theorem entity_config_has_every_member
    (UNDERSCORE : string) (generate_entity_id : string → string → string)
    (device : string) :
  Forall (λ m, entity_config UNDERSCORE generate_entity_id device !! value m
               = Some (_generate_entity_config UNDERSCORE generate_entity_id device m))
         members ∧
  ∀ k, Forall (λ m, value m ≠ k) members →
       entity_config UNDERSCORE generate_entity_id device !! k = None.
Proof.
  split.
  - unfold entity_config, members. cbn [fold_left].
    repeat (apply Forall_cons_2 || apply Forall_nil_2);
      cbn [value];
      repeat (rewrite lookup_insert_ne by discriminate);
      apply lookup_insert_eq.
  - intros k Hk. unfold entity_config, members. cbn [fold_left].
    unfold members in Hk.
    repeat (apply Forall_cons in Hk as [? Hk]).
    repeat (rewrite lookup_insert_ne by assumption).
    apply lookup_empty.
Qed.

(** X23. Without a size the item's name ends in a space: [self.name] is the
    configured name followed by one blank, and so differs from the
    [friendly_name] that [async_setup_entry] gives the device registry,
    which is the configured name itself. *)
Theorem item_name_without_size (SPACE : string) (d : config_data) :
  CONF_ITEM_SIZE d = None →
  item_name d = CONF_ITEM_NAME d +:+ " " ∧
  friendly_name SPACE d = CONF_ITEM_NAME d ∧
  item_name d ≠ friendly_name SPACE d.
Proof.
  intros Hsize. unfold item_name, friendly_name. rewrite Hsize. simpl.
  assert (∀ n : string, n +:+ " " +:+ "" = n +:+ " ") as Hn.
  { intros n. induction n as [| c n IH]; [reflexivity |].
    change (String c (n +:+ " " +:+ "") = String c (n +:+ " ")). by f_equal. }
  rewrite Hn. split; [reflexivity | split; [reflexivity |]].
  intros Heq.
  assert (∀ n : string, n +:+ "" = n) as Hnil.
  { intros n. induction n as [| c n IH]; [reflexivity |].
    change (String c (n +:+ "") = String c n). by f_equal. }
  rewrite <- (Hnil (CONF_ITEM_NAME d)) in Heq at 2.
  apply String.app_inj in Heq. discriminate Heq.
Qed.

Lemma item_name_without_size_witness :
  let d := mkConfigData "Aspirin" None None in
  CONF_ITEM_SIZE d = None ∧
  item_name d = CONF_ITEM_NAME d +:+ " " ∧
  friendly_name " " d = CONF_ITEM_NAME d ∧
  item_name d ≠ friendly_name " " d.
Proof.
  split; [reflexivity |].
  apply (item_name_without_size " " (mkConfigData "Aspirin" None None)). reflexivity.
Defined.

(** X24. Device ids do not tell a size from a hyphenated name: an item
    named [n] with size [s] and an item named [n + "-" + s] with no size get
    the same [device_id], and with it the same unique ids. *)
Theorem device_id_folds_size_into_name
    (UNDERSCORE : string) (generate_entity_id : string → string → string)
    (n s : string) (v v' : option string) (m : member) :
  device_id (mkConfigData n (Some s) v) = device_id (mkConfigData (n +:+ "-" +:+ s) None v') ∧
  UNIQUE_ID (_generate_entity_config UNDERSCORE generate_entity_id
               (device_id (mkConfigData n (Some s) v)) m)
  = UNIQUE_ID (_generate_entity_config UNDERSCORE generate_entity_id
                 (device_id (mkConfigData (n +:+ "-" +:+ s) None v')) m).
Proof.
  assert (device_id (mkConfigData n (Some s) v)
          = device_id (mkConfigData (n +:+ "-" +:+ s) None v')) as H.
  { unfold device_id. cbn [CONF_ITEM_SIZE CONF_ITEM_NAME].
    by rewrite !lower_app. }
  split; [exact H | by rewrite H].
Qed.

(** X25. A device id is in lower case and blind to case: lowering it
    changes nothing, and a configuration whose name and size are lowered
    beforehand gets the same [device_id]. *)
Theorem device_id_is_lower_case (d : config_data) :
  lower (device_id d) = device_id d ∧
  device_id (mkConfigData (lower (CONF_ITEM_NAME d)) (lower <$> CONF_ITEM_SIZE d)
                          (CONF_ITEM_VENDOR d))
  = device_id d.
Proof.
  destruct d as [n [s |] v]; unfold device_id; cbn [CONF_ITEM_SIZE CONF_ITEM_NAME fmap option_fmap option_map].
  - rewrite !lower_app, !lower_idemp. by split.
  - rewrite !lower_idemp. by split.
Qed.

(** * The code over Python's numbers: facts *)
Module PyFacts.
Import Py.
Local Open Scope py_scope.

(** ** Relations between the item found and the item left *)

Lemma zero_extends_refl_py (n : gmap Z number) : zero_extends n n.
Proof. intros q. by left. Qed.

Lemma zero_extends_trans_py (n1 n2 n3 : gmap Z number) :
  zero_extends n1 n2 → zero_extends n2 n3 → zero_extends n1 n3.
Proof.
  intros H12 H23 q.
  destruct (H12 q) as [E12 | [N1 S2]], (H23 q) as [E23 | [N2 S3]].
  - left. congruence.
  - right. split; congruence.
  - right. split; congruence.
  - congruence.
Qed.

Lemma zero_extends_number_of_py (n n' : gmap Z number) (q : Z) :
  zero_extends n n' → number_of n' q = number_of n q.
Proof.
  intros H. unfold number_of.
  destruct (H q) as [E | [N S]].
  - by rewrite E.
  - by rewrite N, S.
Qed.

Lemma zero_extends_none_negative (it it' : InventoryManagerItem) :
  zero_extends (_numbers it) (_numbers it') → none_negative it → none_negative it'.
Proof.
  intros H Hn q v Hq.
  destruct (H q) as [E | [_ S]].
  - apply (Hn q). congruence.
  - by assert (v = Int 0) as -> by congruence.
Qed.

Lemma carries_on_refl_py (it : InventoryManagerItem) : carries_on it it.
Proof.
  split; [reflexivity | split; [by intros et H |]].
  exists []. by rewrite app_nil_r.
Qed.

Lemma carries_on_trans_py (it1 it2 it3 : InventoryManagerItem) :
  carries_on it1 it2 → carries_on it2 it3 → carries_on it1 it3.
Proof.
  intros (T12 & G12 & n12 & U12 & F12) (T23 & G23 & n23 & U23 & F23).
  split; [congruence | split].
  - intros et H. by apply G23, G12.
  - exists (n12 ++ n23). split.
    + by rewrite U23, U12, app_assoc.
    + by apply Forall_app.
Qed.

Lemma carries_on_with_numbers (n : gmap Z number) (it : InventoryManagerItem) :
  carries_on it (with_numbers n it).
Proof.
  split; [reflexivity | split; [by intros et H |]].
  exists []. by rewrite app_nil_r.
Qed.

Lemma steady_refl (it : InventoryManagerItem) : steady it it.
Proof. split; [apply carries_on_refl_py | apply zero_extends_refl_py]. Qed.

Lemma steady_trans (it1 it2 it3 : InventoryManagerItem) :
  steady it1 it2 → steady it2 it3 → steady it1 it3.
Proof.
  intros [C12 Z12] [C23 Z23]. split.
  - eapply carries_on_trans_py; eassumption.
  - eapply zero_extends_trans_py; eassumption.
Qed.

Lemma sound_refl (it : InventoryManagerItem) : sound it it.
Proof. split; [apply carries_on_refl_py | done]. Qed.

Lemma sound_trans (it1 it2 it3 : InventoryManagerItem) :
  sound it1 it2 → sound it2 it3 → sound it1 it3.
Proof.
  intros [C12 N12] [C23 N23]. split.
  - eapply carries_on_trans_py; eassumption.
  - auto.
Qed.

Lemma steady_sound (it it' : InventoryManagerItem) : steady it it' → sound it it'.
Proof.
  intros [C Z]. split; [exact C | by apply zero_extends_none_negative].
Qed.

(** ** A relation kept by the parts is kept by the whole *)

Section Keeps.

Variable R : InventoryManagerItem → InventoryManagerItem → Prop.
Hypothesis R_refl : ∀ it, R it it.
Hypothesis R_trans : ∀ it1 it2 it3, R it1 it2 → R it2 it3 → R it1 it3.

Lemma keeps_ret {A} (a : A) : keeps R (ret a).
Proof. intros it. apply R_refl. Qed.

Lemma keeps_raise {A} (e : exn) : keeps R (@raise A e).
Proof. intros it. apply R_refl. Qed.

Lemma keeps_lift {A} (r : outcome A) : keeps R (lift r).
Proof. intros it. apply R_refl. Qed.

Lemma keeps_bind {A B} (m : M A) (k : A → M B) :
  keeps R m → (∀ a, keeps R (k a)) → keeps R (bind m k).
Proof.
  intros Hm Hk it. specialize (Hm it). unfold after, bind in *.
  destruct (m it) as [[a | e] it']; simpl in *.
  - eapply R_trans; [exact Hm | apply Hk].
  - exact Hm.
Qed.

Lemma keeps_try_except {A} (body handler : M A) (caught : exn → bool) :
  keeps R body → keeps R handler → keeps R (try_except body caught handler).
Proof.
  intros Hb Hh it. specialize (Hb it). unfold after, try_except in *.
  destruct (body it) as [[a | e] it']; simpl in *; [exact Hb |].
  destruct (caught e); [| exact Hb].
  eapply R_trans; [exact Hb | apply Hh].
Qed.

Lemma keeps_if {A} (b : bool) (m1 m2 : M A) :
  keeps R m1 → keeps R m2 → keeps R (if b then m1 else m2).
Proof. by destruct b. Qed.

End Keeps.

Lemma keeps_weaken {A} (R S : InventoryManagerItem → InventoryManagerItem → Prop) (m : M A) :
  (∀ it it', R it it' → S it it') → keeps R m → keeps S m.
Proof. intros H Hm it. apply H, Hm. Qed.

(** ** What each method keeps *)

Section Facts.

Context {S : summation}.

Ltac steady_bind :=
  apply (keeps_bind steady steady_trans).

Lemma get_steady (q : Z) : keeps steady (get q).
Proof.
  intros it. unfold after, get.
  destruct (_numbers it !! q) as [v |] eqn:Hq; simpl; [apply steady_refl |].
  split; [apply carries_on_with_numbers |].
  simpl. intros k. destruct (decide (q = k)) as [-> | Hne].
  - right. by rewrite lookup_insert_eq.
  - left. by rewrite lookup_insert_ne.
Qed.

Lemma sum_get_steady (ts : list Z) (t : total) : keeps steady (sum_get t ts).
Proof.
  revert t. induction ts as [| q ts IH]; intros t; simpl.
  - apply (keeps_ret steady steady_refl).
  - steady_bind; [apply get_steady |]. intros v.
    steady_bind; [apply (keeps_lift steady steady_refl) |]. intros t'. apply IH.
Qed.

Lemma daily_consumption_steady : keeps steady daily_consumption.
Proof.
  apply (keeps_try_except steady steady_trans).
  - steady_bind; [apply sum_get_steady |]. intros s.
    apply (keeps_ret steady steady_refl).
  - apply (keeps_ret steady steady_refl).
Qed.

Lemma days_remaining_steady : keeps steady days_remaining.
Proof.
  steady_bind; [apply get_steady |]. intros supply.
  steady_bind; [apply daily_consumption_steady |]. intros daily.
  apply keeps_if.
  - apply (keeps_lift steady steady_refl).
  - apply (keeps_ret steady steady_refl).
Qed.

Lemma registered_true_py (it : InventoryManagerItem) (et : Z) :
  registered it et = true ↔ is_Some (entity it !! et).
Proof. unfold registered. apply bool_decide_eq_true. Qed.

Lemma register_steady (slot : Z) (sub : sub_entity) :
  keeps steady (modify (λ it, with_entity (<[slot := sub]> (entity it)) it)).
Proof.
  intros it. unfold after, modify. simpl.
  split; [| apply zero_extends_refl_py].
  split; [reflexivity | split].
  - intros et. rewrite !registered_true_py. simpl.
    destruct (decide (slot = et)) as [-> | Hne].
    + rewrite lookup_insert_eq. eauto.
    + by rewrite lookup_insert_ne.
  - exists []. by rewrite app_nil_r.
Qed.

Lemma threshold_steady : keeps steady threshold.
Proof.
  intros it. unfold after, threshold.
  destruct (sensor_before_empty it); apply steady_refl.
Qed.

Lemma update_steady (slot : Z) (sub : sub_entity) : keeps steady (update slot sub).
Proof.
  destruct sub as [w | p]; simpl.
  - unfold WarnSensor_update.
    steady_bind; [apply days_remaining_steady |]. intros d.
    apply keeps_if; [apply register_steady |].
    steady_bind; [apply register_steady |]. intros _.
    steady_bind; [apply threshold_steady |]. intros t.
    apply register_steady.
  - unfold EmptyPredictionSensor_update.
    steady_bind; [apply days_remaining_steady |]. intros d.
    apply register_steady.
Qed.

Lemma notify_steady (et : Z) :
  et = EMPTYPREDICTION ∨ et = WARNING → keeps steady (notify et).
Proof.
  intros Het it. unfold after, notify.
  destruct (entity it !! et) as [sub |] eqn:Hsub; [| apply steady_refl].
  unfold bind, modify.
  eapply steady_trans; [| apply (update_steady et sub)].
  split; [| apply zero_extends_refl_py].
  split; [reflexivity | split; [by intros k H |]].
  exists [et]. split; [reflexivity |]. by apply Forall_cons_2; [| apply Forall_nil_2].
Qed.

Lemma notify_all_steady (ets : list Z) :
  Forall (λ et, et = EMPTYPREDICTION ∨ et = WARNING) ets → keeps steady (notify_all ets).
Proof.
  induction 1 as [| et ets Het _ IH]; simpl.
  - apply (keeps_ret steady steady_refl).
  - steady_bind; [by apply notify_steady |]. intros _. exact IH.
Qed.

Lemma store_sound (spec : Z) (val : number) :
  py_lt val (Int 0) = false → keeps sound (store spec val).
Proof.
  intros Hval it. unfold after, store, modify. simpl.
  split; [apply carries_on_with_numbers |].
  intros Hn. by apply map_Forall_insert_2.
Qed.

Lemma set_sound (spec : Z) (val : number) : keeps sound (set spec val).
Proof.
  unfold set. apply (keeps_bind sound sound_trans).
  - destruct (py_lt val (Int 0)) eqn:Hval.
    + by apply store_sound.
    + by apply store_sound.
  - intros _. apply (keeps_weaken steady sound _ steady_sound).
    apply notify_all_steady.
    apply Forall_cons_2; [by left |]. apply Forall_cons_2; [by right |].
    apply Forall_nil_2.
Qed.

Lemma take_number_sound (number : number) : keeps sound (take_number number).
Proof.
  unfold take_number. apply keeps_if; [| apply (keeps_ret sound sound_refl)].
  apply (keeps_bind sound sound_trans).
  - apply (keeps_weaken steady sound _ steady_sound), get_steady.
  - intros supply. apply (keeps_bind sound sound_trans).
    + apply (keeps_lift sound sound_refl).
    + intros left. apply set_sound.
Qed.

Lemma take_dose_sound (dose : Z) : keeps sound (take_dose dose).
Proof.
  unfold take_dose. apply keeps_if; [apply (keeps_ret sound sound_refl) |].
  apply (keeps_bind sound sound_trans).
  - apply (keeps_weaken steady sound _ steady_sound), get_steady.
  - intros amount. apply take_number_sound.
Qed.

Lemma call_sound (op : operation) : keeps sound (call op).
Proof.
  destruct op as [spec val | entity_type | dose | number | |]; simpl.
  - apply set_sound.
  - apply (keeps_bind sound sound_trans).
    + apply (keeps_weaken steady sound _ steady_sound), get_steady.
    + intros v. apply (keeps_ret sound sound_refl).
  - apply take_dose_sound.
  - apply take_number_sound.
  - apply (keeps_weaken steady sound _ steady_sound), register_steady.
  - apply (keeps_weaken steady sound _ steady_sound), register_steady.
Qed.

Lemma run_sound (ops : list operation) (it : InventoryManagerItem) :
  sound it (run ops it).
Proof.
  revert it. induction ops as [| op ops IH]; intros it; simpl.
  - apply sound_refl.
  - eapply sound_trans; [apply call_sound | apply IH].
Qed.

(** ** What the methods return *)

Lemma result_bind {A B} (m : M A) (k : A → M B) (it : InventoryManagerItem) :
  result (bind m k) it
  = match result m it with
    | Returned a => result (k a) (after m it)
    | Raised e => Raised e
    end.
Proof. unfold result, after, bind. by destruct (m it) as [[a | e] it']. Qed.

Lemma after_bind {A B} (m : M A) (k : A → M B) (it : InventoryManagerItem) :
  after (bind m k) it
  = match result m it with
    | Returned a => after (k a) (after m it)
    | Raised e => after m it
    end.
Proof. unfold result, after, bind. by destruct (m it) as [[a | e] it']. Qed.

Lemma result_try_except {A} (body handler : M A) (caught : exn → bool)
    (it : InventoryManagerItem) :
  result (try_except body caught handler) it
  = match result body it with
    | Returned a => Returned a
    | Raised e => if caught e then result handler (after body it) else Raised e
    end.
Proof.
  unfold result, after, try_except.
  destruct (body it) as [[a | e] it']; [reflexivity |]. simpl. by destruct (caught e).
Qed.

Lemma result_get_py (q : Z) (it : InventoryManagerItem) :
  result (get q) it = Returned (number_of (_numbers it) q).
Proof.
  unfold result, get, number_of. by destruct (_numbers it !! q).
Qed.

Lemma steady_number_of (it it' : InventoryManagerItem) (q : Z) :
  steady it it' → number_of (_numbers it') q = number_of (_numbers it) q.
Proof. intros [_ H]. by apply zero_extends_number_of_py. Qed.

Lemma result_sum_get (ts : list Z) (t : total) (it : InventoryManagerItem) :
  result (sum_get t ts) it = sum_from t (map (number_of (_numbers it)) ts).
Proof.
  revert t it. induction ts as [| q ts IH]; intros t it; simpl; [reflexivity |].
  rewrite result_bind, result_get_py, result_bind.
  change (result (lift (add_item t (number_of (_numbers it) q))) (after (get q) it))
    with (add_item t (number_of (_numbers it) q)).
  destruct (add_item t (number_of (_numbers it) q)) as [t' | e]; [| reflexivity].
  change (after (lift (Returned t')) (after (get q) it)) with (after (get q) it).
  rewrite IH. f_equal. apply map_ext. intros k.
  apply steady_number_of, get_steady.
Qed.

Lemma float_of_int_raises (z : Z) (e : exn) :
  float_of_int z = Raised e → e = OverflowError.
Proof.
  unfold float_of_int. destruct (binary_normalize _ _ _ _ _); congruence.
Qed.

Lemma int_truediv_raises (x y : Z) (e : exn) :
  int_truediv x y = Raised e → e = OverflowError.
Proof.
  unfold int_truediv. destruct (SFdiv _ _ _ _); congruence.
Qed.

Lemma py_add_raises (a b : number) (e : exn) :
  py_add a b = Raised e → e = OverflowError.
Proof.
  destruct a as [x | x], b as [y | y]; simpl; try discriminate.
  - destruct (float_of_int x) eqn:Hx; [discriminate |].
    intros [= <-]. by apply float_of_int_raises in Hx.
  - destruct (float_of_int y) eqn:Hy; [discriminate |].
    intros [= <-]. by apply float_of_int_raises in Hy.
Qed.

Lemma sum_from_raises (vs : list number) (t : total) (e : exn) :
  raises_only_overflow S → sum_from t vs = Raised e → e = OverflowError.
Proof.
  intros HS. revert t. induction vs as [| v vs IH]; intros t; simpl; [discriminate |].
  destruct (add_item t v) as [t' | e'] eqn:Hadd.
  - apply IH.
  - intros [= <-]. by apply HS in Hadd.
Qed.

(** The guard [daily > 0] keeps the divisor from 0. *)
Lemma py_truediv_guarded (s d : number) (e : exn) :
  py_lt (Int 0) d = true → py_truediv s d = Raised e → e = OverflowError.
Proof.
  intros Hd.
  assert (match d with
          | Int y => (y =? 0) = false
          | Float y => float_is_zero y = false
          end) as Hnz.
  { destruct d as [y | y]; simpl in Hd.
    - apply Z.ltb_lt in Hd. apply Z.eqb_neq. lia.
    - unfold float_compare_int in Hd. unfold float_is_zero.
      destruct (Prim2SF y); try reflexivity. discriminate Hd. }
  destruct s as [x | x], d as [y | y]; simpl; rewrite ?Hnz.
  - destruct (int_truediv x y) eqn:Hq; [discriminate |].
    intros [= <-]. by apply int_truediv_raises in Hq.
  - destruct (float_of_int x) eqn:Hx; [discriminate |].
    intros [= <-]. by apply float_of_int_raises in Hx.
  - destruct (float_of_int y) eqn:Hy; [discriminate |].
    intros [= <-]. by apply float_of_int_raises in Hy.
  - discriminate.
Qed.

(** What [daily_consumption] makes of the sum, whatever the sum raises. *)
Lemma result_daily_consumption_handled (it : InventoryManagerItem) :
  result daily_consumption it
  = match py_sum (map (number_of (_numbers it)) [MORNING; NOON; EVENING; NIGHT]) with
    | Returned s => Returned s
    | Raised e => if caught_by_daily_consumption e then Returned (Int 0) else Raised e
    end.
Proof.
  unfold daily_consumption. rewrite result_try_except, result_bind, result_sum_get.
  fold (py_sum (map (number_of (_numbers it)) [MORNING; NOON; EVENING; NIGHT])).
  destruct (py_sum _) as [s | e]; [reflexivity |].
  by destruct (caught_by_daily_consumption e).
Qed.

Lemma result_daily_consumption_py (it : InventoryManagerItem) :
  raises_only_overflow S →
  result daily_consumption it
  = py_sum (map (number_of (_numbers it)) [MORNING; NOON; EVENING; NIGHT]).
Proof.
  intros HS. rewrite result_daily_consumption_handled.
  destruct (py_sum _) as [s | e] eqn:Hsum; [reflexivity |].
  apply (sum_from_raises _ _ _ HS) in Hsum as ->. reflexivity.
Qed.

Lemma result_days_remaining_py (it : InventoryManagerItem) :
  result days_remaining it
  = match result daily_consumption it with
    | Returned daily =>
        if py_lt (Int 0) daily
        then py_truediv (number_of (_numbers it) SUPPLY) daily
        else Returned (Int 10000)
    | Raised e => Raised e
    end.
Proof.
  unfold days_remaining. rewrite result_bind, result_get_py, result_bind.
  assert (result daily_consumption (after (get SUPPLY) it) = result daily_consumption it)
    as ->.
  { rewrite !result_daily_consumption_handled.
    assert (map (number_of (_numbers (after (get SUPPLY) it))) [MORNING; NOON; EVENING; NIGHT]
            = map (number_of (_numbers it)) [MORNING; NOON; EVENING; NIGHT]) as ->;
      [| reflexivity].
    apply map_ext. intros q. apply steady_number_of, get_steady. }
  destruct (result daily_consumption it) as [daily | e]; [| reflexivity].
  by destruct (py_lt (Int 0) daily).
Qed.

(** A number equal to 0 is not above 0. *)
Lemma py_eq_zero_not_positive (d : number) :
  py_eq d (Int 0) = true → py_lt (Int 0) d = false.
Proof.
  destruct d as [z | f]; simpl.
  - intros H. apply Z.eqb_eq in H. subst z. reflexivity.
  - by destruct (float_compare_int f 0) as [[] |].
Qed.

(** ** The forecast *)

(** C1, amended.  For every item, with [supply] what [get(SUPPLY)] returns:
    when [daily_consumption()] returns a number [daily > 0],
    [days_remaining()] is [supply / daily] as Python divides, which is a
    float, possibly an infinity, or an [OverflowError]; when it returns a
    number that is not [> 0], [days_remaining()] returns 10000, and a daily
    consumption equal to 0 is of that kind; when it raises, so does
    [days_remaining()].  Whatever is raised is an [OverflowError]: the
    division never fails on a zero divisor. *)
Theorem days_remaining_divides_or_gives_sentinel (it : InventoryManagerItem) :
  raises_only_overflow S →
  ∃ supply,
    result (get SUPPLY) it = Returned supply ∧
    ((∃ daily, result daily_consumption it = Returned daily ∧
               py_lt (Int 0) daily = true ∧
               result days_remaining it = py_truediv supply daily) ∨
     (∃ daily, result daily_consumption it = Returned daily ∧
               py_lt (Int 0) daily = false ∧
               result days_remaining it = Returned (Int 10000)) ∨
     (result daily_consumption it = Raised OverflowError ∧
      result days_remaining it = Raised OverflowError)) ∧
    (∀ daily, result daily_consumption it = Returned daily →
              py_eq daily (Int 0) = true →
              result days_remaining it = Returned (Int 10000)) ∧
    ∀ e, result days_remaining it = Raised e → e = OverflowError.
Proof.
  intros HS. exists (number_of (_numbers it) SUPPLY).
  split; [apply result_get_py |].
  rewrite result_days_remaining_py.
  destruct (result daily_consumption it) as [daily | e] eqn:Hdaily.
  - split; [| split].
    + destruct (py_lt (Int 0) daily) eqn:Hpos.
      * left. by exists daily.
      * right. left. by exists daily.
    + intros d [= <-] Hz. by rewrite (py_eq_zero_not_positive _ Hz).
    + destruct (py_lt (Int 0) daily) eqn:Hpos; [| discriminate].
      intros e. by apply py_truediv_guarded.
  - rewrite (result_daily_consumption_py _ HS) in Hdaily.
    apply (sum_from_raises _ _ _ HS) in Hdaily as ->.
    split; [right; right; by split | split; [discriminate |]].
    by intros e [= <-].
Qed.

(** ** The daily consumption *)

(** C3, amended.  For every item, [daily_consumption()] is Python's [sum],
    from 0 and from left to right, of what [get] returns for MORNING, NOON,
    EVENING and NIGHT, which for each tag is the stored number, or 0 when
    none is stored.  It returns that sum, or raises the [OverflowError] that
    the sum raises; it raises nothing else, so that the handler for
    [KeyError] and [AttributeError] is never entered. *)
Theorem daily_consumption_is_python_sum (it : InventoryManagerItem) :
  raises_only_overflow S →
  result daily_consumption it
  = py_sum (map (number_of (_numbers it)) [MORNING; NOON; EVENING; NIGHT]) ∧
  Forall (λ q, result (get q) it = Returned (number_of (_numbers it) q))
         [MORNING; NOON; EVENING; NIGHT] ∧
  ∀ e, result daily_consumption it = Raised e → e = OverflowError.
Proof.
  intros HS. split; [by apply result_daily_consumption_py | split].
  - repeat (apply Forall_cons_2; [apply result_get_py |]). apply Forall_nil_2.
  - intros e. rewrite (result_daily_consumption_py _ HS).
    by apply sum_from_raises.
Qed.

(** ** The invariant of the stored numbers *)

Lemma not_negative_cases (v : number) :
  py_lt v (Int 0) = false → py_le (Int 0) v = true ∨ is_nan v = true.
Proof.
  destruct v as [z | f]; simpl.
  - intros H. left. apply Z.ltb_ge in H. by apply Z.leb_le.
  - unfold float_is_nan, float_compare_int.
    destruct (Prim2SF f) as [s | s | | s m e]; simpl.
    + intros _. by left.
    + destruct s; [discriminate | by left].
    + intros _. by right.
    + destruct (if 0 <=? e then _ else _); intros H; (by left) || discriminate H.
Qed.

(** C7, amended.  Whatever calls of [set], [get], [take_dose] and
    [take_number] (and registrations of the two displays) are made on a new
    item, in whatever order and whether or not some of them raise, no stored
    number is negative afterwards: each is [>= 0] or a NaN.  [get] never
    raises, and returns for every tag a number that is [>= 0] or a NaN, 0 for
    a tag with no stored number. *)
Theorem stored_numbers_never_negative
    (threshold : option number) (ops : list operation) :
  let it := run ops (new_item threshold) in
  map_Forall (λ _ v, py_le (Int 0) v = true ∨ is_nan v = true) (_numbers it) ∧
  ∀ q, ∃ v, result (get q) it = Returned v ∧
            v = default (Int 0) (_numbers it !! q) ∧
            (py_le (Int 0) v = true ∨ is_nan v = true).
Proof.
  simpl.
  assert (none_negative (run ops (new_item threshold))) as Hinv.
  { apply (run_sound ops (new_item threshold)). apply map_Forall_empty. }
  split.
  - intros q v Hq. apply not_negative_cases. by apply (Hinv q).
  - intros q. exists (number_of (_numbers (run ops (new_item threshold))) q).
    split; [apply result_get_py | split; [reflexivity |]].
    apply not_negative_cases. unfold number_of.
    destruct (_numbers _ !! q) as [v |] eqn:Hq; simpl; [by apply (Hinv q) | reflexivity].
Qed.

(** ** What no sequence of calls undoes *)

(** X20. From any item whatever, no sequence of [set], [get], [take_dose],
    [take_number] and display registrations, whether its calls return or
    raise, changes the warning threshold or unregisters a display, and the
    displays it updates are only those under EMPTYPREDICTION and WARNING. *)
Theorem calls_never_unregister (ops : list operation) (it : InventoryManagerItem) :
  sensor_before_empty (run ops it) = sensor_before_empty it ∧
  Forall (λ et, registered it et = true → registered (run ops it) et = true)
         [EMPTYPREDICTION; WARNING] ∧
  ∃ new, updates (run ops it) = updates it ++ new ∧
         Forall (λ et, et = EMPTYPREDICTION ∨ et = WARNING) new.
Proof.
  destruct (run_sound ops it) as [(T & G & U) _].
  split; [exact T | split; [| exact U]].
  repeat (apply Forall_cons_2; [apply G |]). apply Forall_nil_2.
Qed.

End Facts.

(** ** With the documented [sum] *)

Lemma plain_raises_only_overflow : raises_only_overflow plain.
Proof. intros t v e. apply py_add_raises. Qed.

(** C1, as claimed, fails.  With a supply of 1e308 and a morning dose of 0.1
    [days_remaining()] returns infinity; with a supply of 10 ** 400 and a
    morning dose of 3, both [int]s, it raises [OverflowError]. *)
Lemma days_remaining_infinite_or_raising :
  let it1 := run (S := plain)
               [OpSet SUPPLY (Float 0x1.1ccf385ebc8ap+1023);
                OpSet MORNING (Float 0x1.999999999999ap-4)] (new_item None) in
  let it2 := run (S := plain)
               [OpSet SUPPLY (Int (10 ^ 400)); OpSet MORNING (Int 3)] (new_item None) in
  result (days_remaining (S := plain)) it1 = Returned (Float infinity) ∧
  is_infinite (Float infinity) = true ∧
  result (days_remaining (S := plain)) it2 = Raised OverflowError.
Proof. vm_compute. repeat split; reflexivity. Qed.

Lemma days_remaining_divides_or_gives_sentinel_witness :
  let it := run (S := plain)
              [OpSet SUPPLY (Float 0x1.4p+3); OpSet MORNING (Int 4)] (new_item None) in
  raises_only_overflow plain ∧
  ∃ supply,
    result (get SUPPLY) it = Returned supply ∧
    ((∃ daily, result (daily_consumption (S := plain)) it = Returned daily ∧
               py_lt (Int 0) daily = true ∧
               result (days_remaining (S := plain)) it = py_truediv supply daily) ∨
     (∃ daily, result (daily_consumption (S := plain)) it = Returned daily ∧
               py_lt (Int 0) daily = false ∧
               result (days_remaining (S := plain)) it = Returned (Int 10000)) ∨
     (result (daily_consumption (S := plain)) it = Raised OverflowError ∧
      result (days_remaining (S := plain)) it = Raised OverflowError)) ∧
    (∀ daily, result (daily_consumption (S := plain)) it = Returned daily →
              py_eq daily (Int 0) = true →
              result (days_remaining (S := plain)) it = Returned (Int 10000)) ∧
    ∀ e, result (days_remaining (S := plain)) it = Raised e → e = OverflowError.
Proof.
  split; [exact plain_raises_only_overflow |].
  apply (days_remaining_divides_or_gives_sentinel (S := plain)).
  exact plain_raises_only_overflow.
Defined.

(** C3, as claimed, fails.  With a morning dose of 10 ** 400, an [int], and
    a noon dose of 1.0, the sum raises [OverflowError], which
    [daily_consumption()] does not turn into 0. *)
Lemma daily_consumption_lets_overflow_through :
  let it := run (S := plain)
              [OpSet MORNING (Int (10 ^ 400)); OpSet NOON (Float 1)] (new_item None) in
  result (daily_consumption (S := plain)) it = Raised OverflowError ∧
  caught_by_daily_consumption OverflowError = false.
Proof. vm_compute. split; reflexivity. Qed.

Lemma daily_consumption_is_python_sum_witness :
  let it := run (S := plain)
              [OpSet MORNING (Float 0x1.999999999999ap-4); OpSet NOON (Int 2)]
              (new_item None) in
  raises_only_overflow plain ∧
  result (daily_consumption (S := plain)) it
  = py_sum (S := plain) (map (number_of (_numbers it)) [MORNING; NOON; EVENING; NIGHT]) ∧
  Forall (λ q, result (get q) it = Returned (number_of (_numbers it) q))
         [MORNING; NOON; EVENING; NIGHT] ∧
  ∀ e, result (daily_consumption (S := plain)) it = Raised e → e = OverflowError.
Proof.
  split; [exact plain_raises_only_overflow |].
  apply (daily_consumption_is_python_sum (S := plain)).
  exact plain_raises_only_overflow.
Defined.

(** The scenario of the specification with four doses of 1 and a supply
    of 10, all [int]s: a daily consumption of 4 and 2.5 days. *)
Example scenario_four_doses_python :
  let it := run (S := plain)
              [OpSet SUPPLY (Int 10); OpSet MORNING (Int 1); OpSet NOON (Int 1);
               OpSet EVENING (Int 1); OpSet NIGHT (Int 1)] (new_item None) in
  result (daily_consumption (S := plain)) it = Returned (Int 4) ∧
  result (days_remaining (S := plain)) it = Returned (Float 0x1.4p+1).
Proof. vm_compute. split; reflexivity. Qed.

(** A call can raise through a display: with a WarnSensor registered and a
    morning dose of 3, [set(SUPPLY, 10 ** 400)] stores the number and then
    raises the [OverflowError] of the sensor's [days_remaining()]; without a
    threshold in the configuration, [set] raises [KeyError] and leaves the
    sensor available. *)
Example set_raises_through_display :
  let it := run (S := plain) [OpWarnSensor; OpSet MORNING (Int 3)]
              (new_item (Some (Int 7))) in
  let it' := run (S := plain) [OpWarnSensor] (new_item None) in
  result (set (S := plain) SUPPLY (Int (10 ^ 400))) it = Raised OverflowError ∧
  _numbers (after (set (S := plain) SUPPLY (Int (10 ^ 400))) it) !! SUPPLY
  = Some (Int (10 ^ 400)) ∧
  result (set (S := plain) SUPPLY (Int 5)) it' = Raised KeyError ∧
  entity (after (set (S := plain) SUPPLY (Int 5)) it') !! WARNING
  = Some (WarnEntity (mkWarnSensor false true)).
Proof. vm_compute. repeat split; reflexivity. Qed.

(** C7, as claimed, fails.  [set(SUPPLY, nan)] stores the NaN, since
    [nan < 0] is false, and [get(SUPPLY)] returns it: a stored value of which
    [>= 0] is false. *)
Lemma set_stores_nan :
  let it := run (S := plain) [OpSet SUPPLY (Float nan)] (new_item None) in
  _numbers it !! SUPPLY = Some (Float nan) ∧
  result (get SUPPLY) it = Returned (Float nan) ∧
  py_le (Int 0) (Float nan) = false.
Proof. vm_compute. repeat split; reflexivity. Qed.

End PyFacts.
